(** * Reddit_bot: the scan / respond / log pipeline and its GUI lifecycle

    A shallow embedding of [reddit_bot_template.py] (class [RedditBot]) and of
    the control part of [app.py] (class [BotApp]), with the properties of the
    specification stated over it.

    Modelling conventions.
    - Python [str] values are [string]s; [str.lower], [str.strip] and
      [str.isdigit] act on the ASCII range, other bytes are left alone.
    - [time.time()] and [created_utc] are rationals (every float is one); the
      rounding of float subtraction is not modelled.
    - Everything outside the process (clock, Reddit, Gemini, the random
      generator, SQLite failures, the operator) is an oracle of the trace of
      events so far, so an environment may answer differently on every call.
    - Python exceptions are the [Raise] outcome of a state-and-error monad;
      [try/except] and [try/finally] are combinators of that monad.
    - Every method of [RedditBot] reads [self.config] as a mapping, and so
      does [start_bot]; they are modelled on an instance whose configuration
      is such a mapping ([Config]).  [load_config] itself stores a text, not
      a mapping, so the constructor fails at its first subscript of it: the
      model of the constructor, [RedditBot_new], has that failure. *)

From Stdlib Require Import ZArith QArith String Ascii List Lia.
From stdpp Require Import base strings gmap list.

#[local] Open Scope string_scope.
#[local] Open Scope list_scope.
#[local] Open Scope Z_scope.

(** ** Strings as Python uses them *)

Module PyStr.

(** [c.lower()] on ASCII: 'A'..'Z' move to 'a'..'z'. *)
Definition lower_char (c : ascii) : ascii :=
  let n := N_of_ascii c in
  if ((65 <=? n) && (n <=? 90))%N then ascii_of_N (n + 32) else c.

Fixpoint lower (s : string) : string :=
  match s with
  | EmptyString => EmptyString
  | String c s' => String (lower_char c) (lower s')
  end.

(** [sub in s]: [sub] occurs in [s] at some position. *)
Fixpoint py_in (sub s : string) : bool :=
  String.prefix sub s ||
  match s with
  | EmptyString => false
  | String _ s' => py_in sub s'
  end.

(** [s[:n]] *)
Fixpoint take (n : nat) (s : string) : string :=
  match n, s with
  | S n', String c s' => String c (take n' s')
  | _, _ => EmptyString
  end.

(** [sep.join(l)] *)
Definition join (sep : string) (l : list string) : string := String.concat sep l.

(** [c.isspace()] on ASCII: tab, newline, VT, FF, CR, FS..US and space. *)
Definition is_space (c : ascii) : bool :=
  let n := N_of_ascii c in
  (((9 <=? n) && (n <=? 13)) || ((28 <=? n) && (n <=? 32)))%N.

Fixpoint lstrip (s : string) : string :=
  match s with
  | String c s' => if is_space c then lstrip s' else s
  | EmptyString => EmptyString
  end.

(** [s.rstrip()]: drop the trailing run of white space. *)
Fixpoint rstrip (s : string) : string :=
  match s with
  | EmptyString => EmptyString
  | String c s' =>
      match rstrip s' with
      | EmptyString => if is_space c then EmptyString else String c EmptyString
      | r => String c r
      end
  end.

Definition strip (s : string) : string := rstrip (lstrip s).

(** [s.split(",")]: always at least one field. *)
Fixpoint split_comma (s : string) : list string :=
  match s with
  | EmptyString => [EmptyString]
  | String c s' =>
      if Ascii.eqb c "," then EmptyString :: split_comma s'
      else match split_comma s' with
           | f :: fs => String c f :: fs
           | [] => [String c EmptyString]
           end
  end.

Definition is_digit (c : ascii) : bool :=
  let n := N_of_ascii c in ((48 <=? n) && (n <=? 57))%N.

Fixpoint all_digits (s : string) : bool :=
  match s with
  | EmptyString => true
  | String c s' => is_digit c && all_digits s'
  end.

(** [s.isdigit()]: non-empty and only digits. *)
Definition isdigit (s : string) : bool :=
  match s with
  | EmptyString => false
  | _ => all_digits s
  end.

Fixpoint int_acc (acc : Z) (s : string) : Z :=
  match s with
  | EmptyString => acc
  | String c s' => int_acc (10 * acc + (Z.of_N (N_of_ascii c) - 48)) s'
  end.

(** [int(s)] for a string of digits. *)
Definition int (s : string) : Z := int_acc 0 s.

(** A text is truthy when it is not empty. *)
Definition truthy (s : string) : bool :=
  match s with
  | EmptyString => false
  | _ => true
  end.

End PyStr.

(** [k] occurs in [t]: the declarative reading of Python's [k in t]. *)
Definition substring_of (k t : string) : Prop :=
  exists pre suf : string, t = (pre ++ k ++ suf)%string.

(** ** Data model *)

(** A submission as PRAW hands it over.  [post_selftext] is [None] when the
    object has no [selftext] attribute. *)
Record Post := {
  post_id : string;
  post_title : string;
  post_selftext : option string;
  post_subreddit : string;          (* post.subreddit.display_name *)
  post_created_utc : Q;
  post_score : Z
}.

(** The keys of [self.config] that the code reads. *)
Record Config := {
  keywords : list string;
  subreddits : list string;
  reddit_delay : Z;                 (* rate_limits.reddit_delay *)
  gemini_delay : Z;                 (* rate_limits.gemini_delay *)
  response_delay : Z * Z;           (* rate_limits.response_delay *)
  cycle_delay : option Z            (* rate_limits.cycle_delay, set by the GUI *)
}.

(** One row of table [interactions], in the column order of the INSERT. *)
Record Interaction := {
  i_timestamp : Q;
  i_subreddit : string;
  i_post_id : string;
  i_post_title : string;
  i_post_content : string;
  i_keywords_found : string;
  i_bot_response : option string;
  i_response_length : nat;
  i_success : bool
}.

(** One row of table [performance_metrics]. *)
Record Metric := {
  m_timestamp : Q;
  m_total_posts_scanned : Z;
  m_posts_responded_to : Z;
  m_response_rate : Q;
  m_average_response_time : Q
}.

Inductive exn :=
  | ValueError          (* time.sleep of a negative duration, randint on an empty range *)
  | AttributeError      (* attribute access on None *)
  | TypeError           (* a str subscripted with a str *)
  | RedditError         (* any failure of a PRAW call *)
  | GeminiError         (* generate_content failed *)
  | NoTextError         (* response.text on a response without text *)
  | OperationalError    (* sqlite3 statement failed *)
  | ProgrammingError    (* sqlite3 connection already closed *)
  | OtherError.         (* anything else *)

Inductive Level := INFO | WARNING | ERROR.

(** The log lines of both files, with the values they interpolate. *)
Inductive LogMsg :=
  | MsgConnectedReddit
  | MsgConnectedGemini
  | MsgConnectFailed (what : string) (e : exn)
  | MsgDatabaseSetup
  | MsgScanning (name : string)
  | MsgFoundRelevant (title50 : string)
  | MsgErrorGenerating (e : exn)
  | MsgWaiting (delay : Z)
  | MsgPosted (id : string)
  | MsgFailedPost (e : exn)
  | MsgScanned (posts_scanned posts_responded : nat)
  | MsgErrorScanning (name : string) (e : exn)
  | MsgStartingCycle
  | MsgCycleCompleted (elapsed : Q)
  | MsgShutdown
  | MsgGuiCycleStart
  | MsgGuiCycleFinished
  | MsgHeartbeat
  | MsgWorkerError (e : exn).

(** What [generate_content] gives back. *)
Inductive GenResult :=
  | GenRaises                       (* the call itself raised *)
  | GenNoText                       (* a response whose [.text] raises *)
  | GenText (text : string).

Inductive DbOp :=
  | OpConnect
  | OpCreateTable (table : string)
  | OpInsert (row : Interaction)
  | OpDeleteInteractions
  | OpDeleteMetrics
  | OpSelectRecent
  | OpCommit.

Inductive Dialog :=
  | ErrorBox (title : string) (e : option exn)
  | WarningBox (title : string)
  | InfoBox (title : string).

(** The observable steps of a run, oldest first. *)
Inductive Event :=
  | EvLog (lvl : Level) (msg : LogMsg)
  | EvSleep (secs : Z)
  | EvNow (t : Q)
  | EvDetect (text : string)
  | EvFetch (name : string) (limit : Z) (n : option nat)
  | EvGenerate (prompt : string) (r : GenResult)
  | EvRandint (lo hi v : Z)
  | EvReply (id : string) (text : string) (ok : bool)
  | EvDb (op : DbOp) (ok : bool)
  | EvConnect (what : string) (ok : bool)
  | EvStopCheck (set : bool)
  | EvStopClear
  | EvThreadStart
  | EvAsk (answer : bool)
  | EvDialog (d : Dialog)
  | EvTree (rows : list Interaction)
  | EvUiLine (msg : string).

Definition Trace := list Event.

(** The world outside the process.  Every oracle sees the trace so far. *)
Record Env := {
  env_time : Trace -> Q;
  env_new : Trace -> string -> Z -> option (list Post);
  env_generate : Trace -> string -> GenResult;
  env_randint : Trace -> Z;
  env_reply : Trace -> Post -> string -> bool;
  env_db_ok : Trace -> DbOp -> bool;
  env_connect : Trace -> string -> bool;
  env_stop : Trace -> bool;
  env_confirm : Trace -> bool
}.

(** The fields of a [RedditBot] instance. *)
Record Bot := {
  config : Config;
  processed_posts : gset string;
  conn_open : bool;
  pending : list Interaction        (* inserted on [conn], not yet committed *)
}.

(** The file [reddit_bot.db]: committed rows, oldest first. *)
Record Store := {
  interactions : list Interaction;
  performance_metrics : list Metric
}.

(** The fields of [BotApp] that the control code reads or writes. *)
Record App := {
  bot_set : bool;                   (* self.bot is not None *)
  workers : nat;                    (* worker threads started so far *)
  is_running : bool;
  btn_start_enabled : bool;
  btn_stop_enabled : bool;
  status : string * string;
  subreddit_var : string;
  mode_var : string;
  interval_var : string;
  kw_text : string
}.

Record World := {
  trace : Trace;
  bot : Bot;
  db : Store;
  gui : App
}.

Definition with_config (c : Config) (b : Bot) : Bot :=
  {| config := c; processed_posts := processed_posts b;
     conn_open := conn_open b; pending := pending b |}.
Definition with_processed (s : gset string) (b : Bot) : Bot :=
  {| config := config b; processed_posts := s;
     conn_open := conn_open b; pending := pending b |}.
Definition with_conn (o : bool) (p : list Interaction) (b : Bot) : Bot :=
  {| config := config b; processed_posts := processed_posts b;
     conn_open := o; pending := p |}.

Definition with_ui (start stop : bool) (st : string * string) (a : App) : App :=
  {| bot_set := bot_set a; workers := workers a; is_running := is_running a;
     btn_start_enabled := start; btn_stop_enabled := stop; status := st;
     subreddit_var := subreddit_var a; mode_var := mode_var a;
     interval_var := interval_var a; kw_text := kw_text a |}.
Definition with_running (r : bool) (a : App) : App :=
  {| bot_set := bot_set a; workers := workers a; is_running := r;
     btn_start_enabled := btn_start_enabled a;
     btn_stop_enabled := btn_stop_enabled a; status := status a;
     subreddit_var := subreddit_var a; mode_var := mode_var a;
     interval_var := interval_var a; kw_text := kw_text a |}.
Definition with_bot_set (a : App) : App :=
  {| bot_set := true; workers := workers a; is_running := is_running a;
     btn_start_enabled := btn_start_enabled a;
     btn_stop_enabled := btn_stop_enabled a; status := status a;
     subreddit_var := subreddit_var a; mode_var := mode_var a;
     interval_var := interval_var a; kw_text := kw_text a |}.
Definition with_worker (a : App) : App :=
  {| bot_set := bot_set a; workers := S (workers a); is_running := is_running a;
     btn_start_enabled := btn_start_enabled a;
     btn_stop_enabled := btn_stop_enabled a; status := status a;
     subreddit_var := subreddit_var a; mode_var := mode_var a;
     interval_var := interval_var a; kw_text := kw_text a |}.

Definition set_trace (t : Trace) (w : World) : World :=
  {| trace := t; bot := bot w; db := db w; gui := gui w |}.
Definition set_bot (b : Bot) (w : World) : World :=
  {| trace := trace w; bot := b; db := db w; gui := gui w |}.
Definition set_db (s : Store) (w : World) : World :=
  {| trace := trace w; bot := bot w; db := s; gui := gui w |}.
Definition set_gui (a : App) (w : World) : World :=
  {| trace := trace w; bot := bot w; db := db w; gui := a |}.

(** The world after the events [evs] have happened. *)
Definition snoc (w : World) (evs : Trace) : World :=
  set_trace (trace w ++ evs) w.

(** ** The monad of the embedding: state and exceptions *)

Inductive outcome (A : Type) :=
  | Ret (a : A)
  | Raise (e : exn).
Arguments Ret {A} a.
Arguments Raise {A} e.

Definition M (A : Type) : Type := World -> outcome A * World.

#[export] Instance M_ret : MRet M := fun A a w => (Ret a, w).
#[export] Instance M_bind : MBind M := fun A B f m w =>
  match m w with
  | (Ret a, w') => f a w'
  | (Raise e, w') => (Raise e, w')
  end.

Definition raise {A : Type} (e : exn) : M A := fun w => (Raise e, w).

(** [try: m except Exception as e: h e] *)
Definition try_except {A : Type} (m : M A) (h : exn -> M A) : M A := fun w =>
  match m w with
  | (Ret a, w') => (Ret a, w')
  | (Raise e, w') => h e w'
  end.

(** [try: m finally: f]: [f] always runs; what [m] did is kept unless [f]
    itself raises. *)
Definition try_finally {A : Type} (m : M A) (f : M unit) : M A := fun w =>
  let '(o, w') := m w in
  match f w' with
  | (Ret _, w'') => (o, w'')
  | (Raise e, w'') => (Raise e, w'')
  end.

Definition get {A : Type} (f : World -> A) : M A := fun w => (Ret (f w), w).
Definition modify (f : World -> World) : M unit := fun w => (Ret tt, f w).
Definition emit (e : Event) : M unit :=
  modify (fun w => snoc w [e]).

(** [for x in l: body x] *)
Fixpoint for_each {A : Type} (l : list A) (body : A -> M unit) : M unit :=
  match l with
  | [] => mret tt
  | x :: l' => body x;; for_each l' body
  end.

Definition log (lvl : Level) (msg : LogMsg) : M unit := emit (EvLog lvl msg).

(** [time.sleep(d)] *)
Definition sleep (d : Z) : M unit :=
  if d <? 0 then raise ValueError else emit (EvSleep d).

(** [a > b] on timestamps *)
Definition Qgtb (a b : Q) : bool := negb (Qle_bool a b).

(** ** reddit_bot_template.py: class RedditBot *)

Definition nl : string := String (ascii_of_nat 10) EmptyString.

(** The mapping that the text written in [load_config] denotes. *)
Definition default_config : Config :=
  {| keywords := ["help"; "advice"; "question"; "how to"; "need help";
                  "confused"; "stuck"; "problem"; "issue"; "guidance";
                  "suggest"; "recommend"; "opinion"; "thoughts"];
     subreddits := ["india"; "AskReddit"];
     reddit_delay := 2;
     gemini_delay := 12;
     response_delay := (30, 60);
     cycle_delay := None |}.

(** The f-string of [generate_response]. *)
Definition build_prompt (post : Post) (kws : list string) : string :=
  String.concat nl
    [ "You are a curious and helpful Redditor. Instead of just giving a direct answer, your goal is to help the original poster think through their problem by asking insightful questions, while still providing a bit of guidance.";
      "";
      "**Instructions**";
      "*   You are thoughtful and encouraging.";
      "*   You lead with questions before offering a strong opinion.";
      "*   Your tone is conversational and friendly.";
      "*   Be direct, practical, and genuinely helpful. Sound like a real person, not an AI.";
      "**Post Details:**";
      "- Title: " +:+ post_title post;
      "- Content: " +:+ match post_selftext post with
                        | Some s => PyStr.take 500 s
                        | None => "No content"
                        end;
      "- Subreddit: r/" +:+ post_subreddit post;
      "- Keywords found: " +:+ PyStr.join ", " kws;
      "Based on this, draft a comment that helps the user reflect on their own goals. End with an open-ended question.";
      "" ].

(** The loop of [detect_keywords] over the configured keywords. *)
Definition found_keywords (kws : list string) (text : string) : list string :=
  let text_lower := PyStr.lower text in
  List.filter (fun keyword => PyStr.py_in (PyStr.lower keyword) text_lower) kws.

(** The tuple handed to the INSERT of [log_interaction]. *)
Definition interaction_row (now : Q) (post : Post) (kws : list string)
    (response : option string) (success : bool) : Interaction :=
  {| i_timestamp := now;
     i_subreddit := post_subreddit post;
     i_post_id := post_id post;
     i_post_title := post_title post;
     i_post_content := match post_selftext post with
                       | Some s => PyStr.take 500 s
                       | None => ""
                       end;
     i_keywords_found := PyStr.join ", " kws;
     i_bot_response := response;
     i_response_length := match response with
                          | Some s => if PyStr.truthy s then String.length s else 0%nat
                          | None => 0%nat
                          end;
     i_success := success |}.

(** [if response:] on a value that is a text or [None]. *)
Definition response_truthy (response : option string) : bool :=
  match response with
  | Some s => PyStr.truthy s
  | None => false
  end.

Section Bot.

Context (env : Env).

(** [time.time()] and [datetime.now()] *)
Definition time_time : M Q := fun w =>
  let t := env_time env (trace w) in
  (Ret t, snoc w [EvNow t]).

(** [random.randint(lo, hi)]: empty range raises, else a value of the range. *)
Definition random_randint (lo hi : Z) : M Z := fun w =>
  if hi <? lo then (Raise ValueError, w)
  else
    let v := lo + env_randint env (trace w) mod (hi - lo + 1) in
    (Ret v, snoc w [EvRandint lo hi v]).

(** [subreddit.new(limit=limit)]: at most [limit] of the newest posts. *)
Definition subreddit_new (name : string) (limit : Z) : M (list Post) := fun w =>
  match env_new env (trace w) name limit with
  | Some newest =>
      let posts := take (Z.to_nat limit) newest in
      (Ret posts, snoc w [EvFetch name limit (Some (length posts))])
  | None => (Raise RedditError, snoc w [EvFetch name limit None])
  end.

(** [self.gemini_model.generate_content(prompt)] *)
Definition generate_content (prompt : string) : M (option string) := fun w =>
  let r := env_generate env (trace w) prompt in
  let w' := snoc w [EvGenerate prompt r] in
  match r with
  | GenRaises => (Raise GeminiError, w')
  | GenNoText => (Ret None, w')
  | GenText s => (Ret (Some s), w')
  end.

(** [response.text] *)
Definition response_text (response : option string) : M string :=
  match response with
  | Some s => mret s
  | None => raise NoTextError
  end.

(** [post.reply(response_text)] *)
Definition post_reply (post : Post) (text : string) : M unit := fun w =>
  let ok := env_reply env (trace w) post text in
  let w' := snoc w [EvReply (post_id post) text ok] in
  if ok then (Ret tt, w') else (Raise RedditError, w').

(** One SQLite statement; the environment decides whether it goes through. *)
Definition sqlite (op : DbOp) : M unit := fun w =>
  let ok := env_db_ok env (trace w) op in
  let w' := snoc w [EvDb op ok] in
  if ok then (Ret tt, w') else (Raise OperationalError, w').

(** Any use of [self.conn] after [close()] raises. *)
Definition conn_check : M unit :=
  o ← get (fun w => conn_open (bot w));
  if o : bool then mret tt else raise ProgrammingError.

Definition cursor_execute_insert (row : Interaction) : M unit :=
  conn_check;;
  sqlite (OpInsert row);;
  modify (fun w => set_bot (with_conn true (pending (bot w) ++ [row]) (bot w)) w).

Definition conn_commit : M unit :=
  conn_check;;
  sqlite OpCommit;;
  modify (fun w =>
    set_bot (with_conn true [] (bot w))
      (set_db {| interactions := interactions (db w) ++ pending (bot w);
                 performance_metrics := performance_metrics (db w) |} w)).

Definition detect_keywords (text : string) : M (list string) :=
  emit (EvDetect text);;
  cfg ← get (fun w => config (bot w));
  mret (found_keywords (keywords cfg) text).

Definition should_respond_to_post (post : Post) : M (bool * list string) :=
  processed ← get (fun w => processed_posts (bot w));
  if bool_decide (post_id post ∈ processed) then mret (false, [])
  else
    now ← time_time;
    let post_age := (now - post_created_utc post)%Q in
    if Qgtb post_age (3600 # 1) then mret (false, [])
    else
      title_keywords ← detect_keywords (post_title post);
      content_keywords ← match post_selftext post with
                         | Some body => detect_keywords body
                         | None => mret []
                         end;
      let all_keywords :=
        elements (list_to_set (title_keywords ++ content_keywords) : gset string) in
      if negb (bool_decide (all_keywords = [])) && (0 <=? post_score post)
      then mret (true, all_keywords)
      else mret (false, []).

Definition generate_response (post : Post) (kws : list string) : M (option string) :=
  try_except
    (let prompt := build_prompt post kws in
     response ← generate_content prompt;
     cfg ← get (fun w => config (bot w));
     sleep (gemini_delay cfg);;
     text ← response_text response;
     mret (Some text))
    (fun e => log ERROR (MsgErrorGenerating e);; mret None).

Definition post_response (post : Post) (text : string) : M bool :=
  try_except
    (cfg ← get (fun w => config (bot w));
     delay ← random_randint (fst (response_delay cfg)) (snd (response_delay cfg));
     log INFO (MsgWaiting delay);;
     sleep delay;;
     post_reply post text;;
     log INFO (MsgPosted (post_id post));;
     mret true)
    (fun e => log ERROR (MsgFailedPost e);; mret false).

Definition log_interaction (post : Post) (kws : list string)
    (response : option string) (success : bool) : M unit :=
  conn_check;;
  now ← time_time;
  cursor_execute_insert (interaction_row now post kws response success);;
  conn_commit.

(** [self.processed_posts.add(id)] *)
Definition processed_add (id : string) : M unit :=
  modify (fun w => set_bot (with_processed (processed_posts (bot w) ∪ {[id]}) (bot w)) w).

(** The block under [if should_respond:], on the counter of responses. *)
Definition respond (post : Post) (kws : list string) (posts_responded : nat) : M nat :=
  log INFO (MsgFoundRelevant (PyStr.take 50 (post_title post)));;
  response ← generate_response post kws;
  if response_truthy response then
    success ← post_response post (default "" response);
    log_interaction post kws response success;;
    if success : bool then
      processed_add (post_id post);;
      mret (S posts_responded)
    else mret posts_responded
  else mret posts_responded.

(** The body of the [for post in ...] loop of [scan_subreddit], on the two
    counters. *)
Definition scan_post (post : Post) (counters : nat * nat) : M (nat * nat) :=
  let posts_scanned := S (fst counters) in
  let posts_responded := snd counters in
  '(should_respond, kws) ← should_respond_to_post post;
  posts_responded ←
    (if should_respond : bool then respond post kws posts_responded
     else mret posts_responded);
  cfg ← get (fun w => config (bot w));
  sleep (reddit_delay cfg);;
  mret (posts_scanned, posts_responded).

Fixpoint scan_posts (posts : list Post) (counters : nat * nat) : M (nat * nat) :=
  match posts with
  | [] => mret counters
  | post :: rest =>
      counters' ← scan_post post counters;
      scan_posts rest counters'
  end.

(** [scan_subreddit] has no [return]: its result is [None]. *)
Definition scan_subreddit (subreddit_name : string) (limit : Z) : M unit :=
  try_except
    (log INFO (MsgScanning subreddit_name);;
     posts ← subreddit_new subreddit_name limit;
     '(posts_scanned, posts_responded) ← scan_posts posts (0%nat, 0%nat);
     log INFO (MsgScanned posts_scanned posts_responded))
    (fun e => log ERROR (MsgErrorScanning subreddit_name e)).

Definition run_hourly_scan : M unit :=
  start_time ← time_time;
  log INFO MsgStartingCycle;;
  cfg ← get (fun w => config (bot w));
  for_each (subreddits cfg) (fun name => scan_subreddit name 25);;
  end_time ← time_time;
  log INFO (MsgCycleCompleted (end_time - start_time)%Q).

(** [conn.close()] rolls back what was not committed. *)
Definition cleanup : M unit :=
  modify (fun w => set_bot (with_conn false [] (bot w)) w);;
  log INFO MsgShutdown.

(** [self.config[key]] while the instance is built: [load_config] has just
    stored a [str] in [self.config], and a [str] subscripted with a [str]
    raises [TypeError]. *)
Definition config_item (key : string) : M unit := raise TypeError.

(** [RedditBot()]: the instance, or the exception of the failing setup.  The
    arguments of [praw.Reddit] and of [genai.configure] are evaluated before
    the call, so the subscript of the configuration comes before the
    connection. *)
Definition RedditBot_new : M Bot :=
  let connect (what : string) (e : exn) : M unit := fun w =>
    let ok := env_connect env (trace w) what in
    let w' := snoc w [EvConnect what ok] in
    if ok then (Ret tt, w') else (Raise e, w') in
  try_except
    (config_item "reddit";; connect "Reddit" RedditError;; log INFO MsgConnectedReddit)
    (fun e => log ERROR (MsgConnectFailed "Reddit" e);; raise e);;
  try_except
    (config_item "gemini";; connect "Gemini" GeminiError;; log INFO MsgConnectedGemini)
    (fun e => log ERROR (MsgConnectFailed "Gemini" e);; raise e);;
  sqlite OpConnect;;
  sqlite (OpCreateTable "interactions");;
  sqlite (OpCreateTable "performance_metrics");;
  sqlite OpCommit;;
  log INFO MsgDatabaseSetup;;
  mret {| config := default_config; processed_posts := ∅;
          conn_open := true; pending := [] |}.

End Bot.

(** ** app.py: class BotApp *)

Section App.

Context (env : Env).

Definition showerror (title : string) (e : option exn) : M unit :=
  emit (EvDialog (ErrorBox title e)).
Definition showwarning (title : string) : M unit := emit (EvDialog (WarningBox title)).
Definition showinfo (title : string) : M unit := emit (EvDialog (InfoBox title)).

(** [messagebox.askyesno] *)
Definition askyesno : M bool := fun w =>
  let a := env_confirm env (trace w) in
  (Ret a, snoc w [EvAsk a]).

Definition log_line (msg : string) : M unit := emit (EvUiLine msg).

(** [self.stop_event.is_set()] *)
Definition stop_is_set : M bool := fun w =>
  let b := env_stop env (trace w) in
  (Ret b, snoc w [EvStopCheck b]).

(** The rows of the SELECT: newest first, at most 150. *)
Definition recent_rows (s : Store) : list Interaction :=
  take 150 (rev (interactions s)).

(** [refresh_db]; the rendering of the rows in the tree view is one event. *)
Definition refresh_db : M unit :=
  r ← try_except
        (sqlite env OpConnect;;
         sqlite env OpSelectRecent;;
         rows ← get (fun w => recent_rows (db w));
         mret (Some rows))
        (fun e => showerror "DB Error" (Some e);; mret None);
  match r with
  | None => mret tt
  | Some rows => emit (EvTree rows)
  end.

(** The [try] block of [clear_db]: the bulk clear of the store, on a
    connection of its own.  The rows are gone once the commit went through. *)
Definition bulk_clear : M unit :=
  try_except
    (sqlite env OpConnect;;
     sqlite env OpDeleteInteractions;;
     sqlite env OpDeleteMetrics;;
     sqlite env OpCommit;;
     modify (set_db {| interactions := []; performance_metrics := [] |});;
     refresh_db;;
     showinfo "Done")
    (fun e => showerror "DB Error" (Some e)).

Definition clear_db : M unit :=
  yes ← askyesno;
  if negb yes then mret tt else bulk_clear.

(** [[k.strip() for k in kw_text.split(",") if k.strip()]] *)
Definition parse_keywords (text : string) : list string :=
  List.filter PyStr.truthy (List.map PyStr.strip (PyStr.split_comma text)).

Definition compute_cycle_delay (mode interval_str : string) : Z :=
  if PyStr.isdigit interval_str && (0 <? PyStr.int interval_str)
  then PyStr.int interval_str
  else if String.eqb mode "hourly" then 3600 else 7 * 24 * 3600.

Definition start_bot : M unit :=
  running ← get (fun w => is_running (gui w));
  if running : bool then showwarning "Running"
  else
    sub_choice ← get (fun w => PyStr.strip (subreddit_var (gui w)));
    kw ← get (fun w => PyStr.strip (kw_text (gui w)));
    let kws := parse_keywords kw in
    mode ← get (fun w => PyStr.strip (mode_var (gui w)));
    interval_str ← get (fun w => PyStr.strip (interval_var (gui w)));
    if bool_decide (kws = []) then showerror "Input Error" None
    else
      let delay := compute_cycle_delay mode interval_str in
      try_except
        (b ← RedditBot_new env;
         modify (fun w => set_gui (with_bot_set (gui w)) (set_bot b w));;
         modify (fun w =>
           set_bot (with_config
             {| keywords := kws;
                subreddits := if String.eqb sub_choice "both"
                              then ["india"; "AskReddit"] else [sub_choice];
                reddit_delay := reddit_delay (config (bot w));
                gemini_delay := gemini_delay (config (bot w));
                response_delay := response_delay (config (bot w));
                cycle_delay := Some delay |} (bot w)) w);;
         emit EvStopClear;;
         modify (fun w => set_gui (with_worker (gui w)) w);;
         emit EvThreadStart;;
         modify (fun w => set_gui (with_running true (gui w)) w);;
         modify (fun w => set_gui (with_ui false true ("Running", "green") (gui w)) w);;
         log_line "Bot started successfully!")
        (fun e => showerror "Start Error" (Some e)).

(** [range(delay)] *)
Definition range (n : Z) : list nat := seq 0 (Z.to_nat n).

(** The inner [for _ in range(delay)] of [_run_loop]; [break] leaves it. *)
Fixpoint wait_loop (steps : list nat) : M unit :=
  match steps with
  | [] => mret tt
  | i :: rest =>
      stop ← stop_is_set;
      if stop : bool then mret tt
      else
        (if (i mod 60 =? 0)%nat then log INFO MsgHeartbeat else mret tt);;
        sleep 1;;
        wait_loop rest
  end.

(** The body of the [while] of [_run_loop], around the scan cycle [cycle]. *)
Definition loop_body (cycle : M unit) : M unit :=
  b ← get (fun w => bot_set (gui w));
  (if b : bool then mret tt else raise AttributeError);;
  log INFO MsgGuiCycleStart;;
  cycle;;
  log INFO MsgGuiCycleFinished;;
  cfg ← get (fun w => config (bot w));
  let delay := default 3600 (cycle_delay cfg) in
  wait_loop (range delay).

(** [while not self.stop_event.is_set(): ...], for at most [fuel] tests of the
    condition; [None] when the loop is still going after that. *)
Fixpoint while_not_stopped (cycle : M unit) (fuel : nat) (w : World)
    : option (outcome unit * World) :=
  match fuel with
  | O => None
  | S fuel' =>
      match stop_is_set w with
      | (Ret true, w1) => Some (Ret tt, w1)
      | (Ret false, w1) =>
          match loop_body cycle w1 with
          | (Ret _, w2) => while_not_stopped cycle fuel' w2
          | (Raise e, w2) => Some (Raise e, w2)
          end
      | (Raise e, w1) => Some (Raise e, w1)
      end
  end.

(** The [finally] block of [_run_loop]. *)
Definition finalizer : M unit :=
  try_except
    (b ← get (fun w => bot_set (gui w));
     if b : bool then cleanup else mret tt)
    (fun _ => mret tt);;
  modify (fun w => set_gui (with_running false (gui w)) w);;
  modify (fun w => set_gui (with_ui true false ("Stopped", "red") (gui w)) w);;
  log_line "Bot stopped.".

(** [_run_loop] around an arbitrary scan cycle. *)
Definition run_loop_with (cycle : M unit) (fuel : nat) (w : World)
    : option (outcome unit * World) :=
  match while_not_stopped cycle fuel w with
  | None => None
  | Some r =>
      Some (try_finally
              (try_except (fun _ => r) (fun e => log ERROR (MsgWorkerError e)))
              finalizer w)
  end.

Definition _run_loop (fuel : nat) : World -> option (outcome unit * World) :=
  run_loop_with (run_hourly_scan env) fuel.

End App.

(** ** Vocabulary of the statements *)

(** The keyword [k] of [K] occurs, whatever the case, in the title or in the
    body of [post]. *)
Definition matched (K : list string) (post : Post) (k : string) : Prop :=
  k ∈ K /\
  (substring_of (PyStr.lower k) (PyStr.lower (post_title post)) \/
   exists body, post_selftext post = Some body /\
                substring_of (PyStr.lower k) (PyStr.lower body)).

(** The calls of [detect_keywords] that [should_respond_to_post] makes on the
    body of [post]. *)
Definition selftext_events (post : Post) : Trace :=
  match post_selftext post with
  | Some body => [EvDetect body]
  | None => []
  end.

(** [list(set(title_keywords + content_keywords))] *)
Definition all_keywords (K : list string) (post : Post) : list string :=
  elements (list_to_set
    (found_keywords K (post_title post) ++
     match post_selftext post with
     | Some body => found_keywords K body
     | None => []
     end) : gset string).

(** How often Gemini was called in a stretch of the trace. *)
Definition generate_calls (evs : Trace) : nat :=
  length (List.filter (fun e => match e with EvGenerate _ _ => true | _ => false end) evs).

(** The ids of the posts to which a reply went through, in a stretch of the
    trace. *)
Definition ok_replies (evs : Trace) : list string :=
  flat_map (fun e => match e with EvReply id _ true => [id] | _ => [] end) evs.

(** Once set, the stop signal stays set (it is only cleared by [start_bot]). *)
Definition stop_latched (env : Env) : Prop :=
  forall h h' : Trace, env_stop env h = true -> env_stop env (h ++ h') = true.

(** SQLite accepts every statement. *)
Definition store_ok (env : Env) : Prop :=
  forall (h : Trace) (op : DbOp), env_db_ok env h op = true.

(** Both tables of the store are empty. *)
Definition store_empty (s : Store) : Prop :=
  interactions s = [] /\ performance_metrics s = [].

(** Round [i] of the inter-cycle wait: the stop signal is tested and found
    clear, a heartbeat is logged on every 60th round, one second is slept. *)
Definition wait_round (i : nat) : Trace :=
  EvStopCheck false ::
  (if (i mod 60 =? 0)%nat then [EvLog INFO MsgHeartbeat] else []) ++
  [EvSleep 1].

(** Rounds [i], [i+1], ..., [i+k-1]. *)
Definition wait_rounds (i k : nat) : Trace :=
  concat (List.map wait_round (seq i k)).

(** The seconds slept in a stretch of the trace. *)
Definition slept (evs : Trace) : Z :=
  foldr (fun e acc => match e with EvSleep d => d + acc | _ => acc end) 0 evs.

(** How often the heartbeat was logged in a stretch of the trace. *)
Definition heartbeats (evs : Trace) : nat :=
  length (List.filter
            (fun e => match e with EvLog INFO MsgHeartbeat => true | _ => false end) evs).

(** What the [finally] block of [_run_loop] adds to the trace. *)
Definition finalizer_events (with_bot : bool) : Trace :=
  (if with_bot then [EvLog INFO MsgShutdown] else []) ++ [EvUiLine "Bot stopped."].

(** ** Concrete environments and worlds, for running the model *)

Module Sample.

Definition config_of (kws : list string) : Config :=
  {| keywords := kws; subreddits := ["india"];
     reddit_delay := 2; gemini_delay := 12; response_delay := (30, 60);
     cycle_delay := Some 120 |}.

Definition app0 : App :=
  {| bot_set := true; workers := 1; is_running := true;
     btn_start_enabled := false; btn_stop_enabled := true;
     status := ("Running", "green");
     subreddit_var := "india"; mode_var := "hourly"; interval_var := "120";
     kw_text := "help, advice" |}.

(** A running bot with keywords [kws], nothing processed, an empty store. *)
Definition world_of (kws : list string) : World :=
  {| trace := [];
     bot := {| config := config_of kws; processed_posts := ∅;
               conn_open := true; pending := [] |};
     db := {| interactions := []; performance_metrics := [] |};
     gui := app0 |}.

(** Three new posts of r/india at time 10000: [post_a] and [post_c] ask for
    help and are fresh, [post_b] is two hours old. *)
Definition post_a : Post :=
  {| post_id := "a1"; post_title := "Need HELP with my visa";
     post_selftext := Some "I am stuck."; post_subreddit := "india";
     post_created_utc := 9000; post_score := 3 |}.
Definition post_b : Post :=
  {| post_id := "b2"; post_title := "Any advice?";
     post_selftext := Some ""; post_subreddit := "india";
     post_created_utc := 2800; post_score := 1 |}.
Definition post_c : Post :=
  {| post_id := "c3"; post_title := "A question";
     post_selftext := None; post_subreddit := "india";
     post_created_utc := 9900; post_score := 0 |}.

(** Nothing fails: Reddit lists the three posts, Gemini answers, replies go
    through, SQLite accepts every statement, nobody asks to stop. *)
Definition env_ok : Env :=
  {| env_time := fun _ => 10000%Q;
     env_new := fun _ _ _ => Some [post_a; post_b; post_c];
     env_generate := fun _ _ => GenText "What have you tried so far?";
     env_randint := fun _ => 7;
     env_reply := fun _ _ _ => true;
     env_db_ok := fun _ _ => true;
     env_connect := fun _ _ => true;
     env_stop := fun _ => false;
     env_confirm := fun _ => true |}.

(** As [env_ok], but the forum has no post. *)
Definition env_quiet : Env :=
  {| env_time := env_time env_ok;
     env_new := fun _ _ _ => Some [];
     env_generate := env_generate env_ok;
     env_randint := env_randint env_ok;
     env_reply := env_reply env_ok;
     env_db_ok := env_db_ok env_ok;
     env_connect := env_connect env_ok;
     env_stop := env_stop env_ok;
     env_confirm := env_confirm env_ok |}.

(** As [env_ok], but every call of Gemini raises. *)
Definition env_gemini_down : Env :=
  {| env_time := env_time env_ok;
     env_new := env_new env_ok;
     env_generate := fun _ _ => GenRaises;
     env_randint := env_randint env_ok;
     env_reply := env_reply env_ok;
     env_db_ok := env_db_ok env_ok;
     env_connect := env_connect env_ok;
     env_stop := env_stop env_ok;
     env_confirm := env_confirm env_ok |}.

(** The application before any start, with [kw] typed in the keyword box. *)
Definition stopped_app (kw : string) : App :=
  {| bot_set := false; workers := 0; is_running := false;
     btn_start_enabled := true; btn_stop_enabled := false;
     status := ("Stopped", "red");
     subreddit_var := "both"; mode_var := "hourly"; interval_var := "120";
     kw_text := kw |}.

Definition stopped_world (kw : string) : World :=
  {| trace := [];
     bot := {| config := default_config; processed_posts := ∅;
               conn_open := false; pending := [] |};
     db := {| interactions := []; performance_metrics := [] |};
     gui := stopped_app kw |}.

(** Two rows of [interactions] and one of [performance_metrics]. *)
Definition filled_store : Store :=
  {| interactions :=
       [interaction_row 9500 post_a ["help"] (Some "What have you tried so far?") true;
        interaction_row 9990 post_c ["question"] (Some "Which one?") false];
     performance_metrics :=
       [{| m_timestamp := 9999; m_total_posts_scanned := 3;
           m_posts_responded_to := 1; m_response_rate := 1 # 3;
           m_average_response_time := 42 |}] |}.

Definition filled_world : World :=
  {| trace := []; bot := bot (world_of ["help"]); db := filled_store; gui := app0 |}.

(** As [env_ok], but the operator answers No to every question. *)
Definition env_declines : Env :=
  {| env_time := env_time env_ok;
     env_new := env_new env_ok;
     env_generate := env_generate env_ok;
     env_randint := env_randint env_ok;
     env_reply := env_reply env_ok;
     env_db_ok := env_db_ok env_ok;
     env_connect := env_connect env_ok;
     env_stop := env_stop env_ok;
     env_confirm := fun _ => false |}.

(** As [env_quiet], but the operator asks to stop once [n] events have
    happened. *)
Definition env_stop_at (n : nat) : Env :=
  {| env_time := env_time env_ok;
     env_new := env_new env_quiet;
     env_generate := env_generate env_ok;
     env_randint := env_randint env_ok;
     env_reply := env_reply env_ok;
     env_db_ok := env_db_ok env_ok;
     env_connect := env_connect env_ok;
     env_stop := fun h => (n <=? length h)%nat;
     env_confirm := env_confirm env_ok |}.

(** A scan cycle that fails with an error nobody catches. *)
Definition crashing_cycle : M unit := raise OtherError.

(** As [env_ok], but Reddit refuses every reply. *)
Definition env_reply_down : Env :=
  {| env_time := env_time env_ok;
     env_new := env_new env_ok;
     env_generate := env_generate env_ok;
     env_randint := env_randint env_ok;
     env_reply := fun _ _ _ => false;
     env_db_ok := env_db_ok env_ok;
     env_connect := env_connect env_ok;
     env_stop := env_stop env_ok;
     env_confirm := env_confirm env_ok |}.

(** As [env_ok], but SQLite refuses every statement. *)
Definition env_store_down : Env :=
  {| env_time := env_time env_ok;
     env_new := env_new env_ok;
     env_generate := env_generate env_ok;
     env_randint := env_randint env_ok;
     env_reply := env_reply env_ok;
     env_db_ok := fun _ _ => false;
     env_connect := env_connect env_ok;
     env_stop := env_stop env_ok;
     env_confirm := env_confirm env_ok |}.

End Sample.

(** * Properties *)

(** ** Strings *)

Lemma append_cons (c : ascii) (a b : string) :
  (String c a ++ b)%string = String c (a ++ b)%string.
Proof. reflexivity. Qed.

Lemma prefix_iff (k t : string) :
  String.prefix k t = true <-> exists suf, t = (k ++ suf)%string.
Proof.
  revert t. induction k as [|c k IH]; intros t; simpl.
  - destruct t; split; eauto.
  - destruct t as [|d t]; simpl.
    + split; [discriminate | intros [suf H]; discriminate].
    + destruct (ascii_dec c d) as [->|Hne].
      * rewrite IH. split; intros [suf H]; exists suf;
          rewrite append_cons in *; congruence.
      * split; [discriminate | intros [suf H]; rewrite append_cons in H; congruence].
Qed.

(** Python's [k in t] decides occurrence as a substring. *)
Lemma py_in_iff (k t : string) :
  PyStr.py_in k t = true <-> substring_of k t.
Proof.
  unfold substring_of. induction t as [|d t IH]; cbn [PyStr.py_in].
  - rewrite orb_false_r. split.
    + intros H. apply prefix_iff in H as [suf H]. exists EmptyString, suf. exact H.
    + intros [pre [suf H]]. apply prefix_iff.
      destruct pre; [eauto | discriminate].
  - rewrite orb_true_iff, IH. split.
    + intros [H | [pre [suf H]]].
      * apply prefix_iff in H as [suf H]. exists EmptyString, suf. exact H.
      * exists (String d pre), suf. rewrite append_cons. congruence.
    + intros [pre [suf H]]. destruct pre as [|c pre].
      * left. apply prefix_iff. eauto.
      * right. exists pre, suf. rewrite append_cons in H. congruence.
Qed.

Lemma py_in_empty_text (k : string) :
  PyStr.py_in k "" = true <-> k = "".
Proof.
  destruct k; simpl; split; intros H; try reflexivity; discriminate.
Qed.

Lemma lower_empty (k : string) : PyStr.lower k = "" <-> k = "".
Proof. destruct k; simpl; split; intros H; try reflexivity; discriminate. Qed.

(** ** Keyword Matcher *)

Lemma found_keywords_elem (K : list string) (text k : string) :
  k ∈ found_keywords K text <->
  k ∈ K /\ substring_of (PyStr.lower k) (PyStr.lower text).
Proof.
  unfold found_keywords. rewrite !list_elem_of_In, filter_In, py_in_iff.
  reflexivity.
Qed.

Lemma found_keywords_sublist (K : list string) (text : string) :
  found_keywords K text `sublist_of` K.
Proof.
  unfold found_keywords. induction K as [|k K IH]; simpl.
  - constructor.
  - destruct (PyStr.py_in _ _); [by apply sublist_skip | by apply sublist_cons].
Qed.

Lemma found_keywords_perm (K K' : list string) (text : string) :
  K ≡ₚ K' -> found_keywords K text ≡ₚ found_keywords K' text.
Proof.
  unfold found_keywords. induction 1 as [|x l l' _ IH|x y l|l l' l'' _ IH1 _ IH2]; simpl.
  - reflexivity.
  - destruct (PyStr.py_in _ _); [by constructor | done].
  - repeat destruct (PyStr.py_in _ _); try reflexivity. apply perm_swap.
  - by etrans.
Qed.

Lemma found_keywords_NoDup (K : list string) (text : string) :
  NoDup K -> NoDup (found_keywords K text).
Proof.
  intros H. eapply sublist_NoDup; [exact H | apply found_keywords_sublist].
Qed.

Lemma found_keywords_empty_text (K : list string) (k : string) :
  k ∈ found_keywords K "" <-> k ∈ K /\ k = "".
Proof.
  unfold found_keywords. cbv zeta. change (PyStr.lower "") with "".
  rewrite !list_elem_of_In, filter_In, py_in_empty_text, lower_empty.
  reflexivity.
Qed.

(** C2, as stated, fails: the matcher appends to a list, so a keyword that is
    configured twice is reported twice.  With keywords [help, help] and the
    text "I need help" the result is [help, help], which has a duplicate. *)
Lemma detect_keywords_duplicates :
  fst (detect_keywords "I need help" (Sample.world_of ["help"; "help"]))
    = Ret ["help"; "help"]
  /\ ~ NoDup ["help"; "help"].
Proof.
  split; [reflexivity |].
  intros H. apply NoDup_cons in H as [H _]. apply H. by left.
Qed.

(** The empty keyword occurs in every text, also in the empty one. *)
Example detect_keywords_empty_keyword :
  fst (detect_keywords "" (Sample.world_of [""; "help"])) = Ret [""].
Proof. reflexivity. Qed.

(** C2 (amended): [detect_keywords text] returns the sub-list of the configured
    keywords K, in K's order and with K's repetitions, made of exactly the
    keywords whose lowercase form is a substring of the lowercase text; the
    call changes nothing but the call trace.  The result has no duplicates
    when K has none, permuting K permutes the result (the set of matches does
    not depend on the order of checking), an empty K gives an empty result,
    and an empty text matches exactly the empty keywords of K, so nothing
    when K has no empty keyword. *)
Theorem detect_keywords_spec (w : World) (text : string) :
  let K := keywords (config (bot w)) in
  let found := found_keywords K text in
  detect_keywords text w = (Ret found, snoc w [EvDetect text])
  /\ (forall k, k ∈ found <->
        k ∈ K /\ substring_of (PyStr.lower k) (PyStr.lower text))
  /\ found `sublist_of` K
  /\ (NoDup K -> NoDup found)
  /\ (forall K', K ≡ₚ K' -> found ≡ₚ found_keywords K' text)
  /\ (K = [] -> found = [])
  /\ (text = "" -> forall k, k ∈ found <-> k ∈ K /\ k = "")
  /\ (text = "" -> "" ∉ K -> found = []).
Proof.
  intros K found. subst found.
  split; [reflexivity |].
  split; [intros k; apply found_keywords_elem |].
  split; [apply found_keywords_sublist |].
  split; [apply found_keywords_NoDup |].
  split; [intros K'; apply found_keywords_perm |].
  split; [by intros -> |].
  split; [intros -> k; apply found_keywords_empty_text |].
  intros -> Hno. apply elem_of_nil_inv. intros k Hk.
  apply found_keywords_empty_text in Hk as [Hk ->]. done.
Qed.

(** ** Running monadic code *)

Lemma bind_run {A B : Type} (m : M A) (f : A -> M B) (w : World) :
  (m ≫= f) w = match m w with
               | (Ret a, w') => f a w'
               | (Raise e, w') => (Raise e, w')
               end.
Proof. reflexivity. Qed.

Lemma bind_ret {A B : Type} (m : M A) (f : A -> M B) (w w' : World) (a : A) :
  m w = (Ret a, w') -> (m ≫= f) w = f a w'.
Proof. intros H. rewrite bind_run, H. reflexivity. Qed.

Lemma snoc_snoc (w : World) (a b : Trace) : snoc (snoc w a) b = snoc w (a ++ b).
Proof. unfold snoc, set_trace. simpl. by rewrite app_assoc. Qed.

Lemma snoc_nil (w : World) : snoc w [] = w.
Proof. destruct w. unfold snoc, set_trace. simpl. by rewrite app_nil_r. Qed.

Lemma emit_run (e : Event) (w : World) : emit e w = (Ret tt, snoc w [e]).
Proof. reflexivity. Qed.

Lemma log_run (lvl : Level) (msg : LogMsg) (w : World) :
  log lvl msg w = (Ret tt, snoc w [EvLog lvl msg]).
Proof. reflexivity. Qed.

Lemma sleep_run (d : Z) (w : World) :
  0 <= d -> sleep d w = (Ret tt, snoc w [EvSleep d]).
Proof. intros H. unfold sleep. destruct (Z.ltb_spec d 0); [lia | reflexivity]. Qed.

Lemma sleep_neg (d : Z) (w : World) :
  d < 0 -> sleep d w = (Raise ValueError, w).
Proof. intros H. unfold sleep. destruct (Z.ltb_spec d 0); [reflexivity | lia]. Qed.

Lemma Qgtb_iff (a b : Q) : Qgtb a b = true <-> (b < a)%Q.
Proof.
  unfold Qgtb. rewrite negb_true_iff. split.
  - intros H. apply Qnot_le_lt. intros Hle. apply Qle_bool_iff in Hle. congruence.
  - intros H. destruct (Qle_bool a b) eqn:E; [| reflexivity].
    apply Qle_bool_iff in E. exfalso. exact (Qlt_not_le _ _ H E).
Qed.

(** ** Post Filter *)

Lemma detect_keywords_run (text : string) (w : World) :
  detect_keywords text w =
  (Ret (found_keywords (keywords (config (bot w))) text), snoc w [EvDetect text]).
Proof. reflexivity. Qed.

(** [should_respond_to_post], branch by branch. *)
Lemma should_respond_run (env : Env) (post : Post) (w : World) :
  should_respond_to_post env post w =
  if bool_decide (post_id post ∈ processed_posts (bot w)) then (Ret (false, []), w)
  else
    let now := env_time env (trace w) in
    if Qgtb (now - post_created_utc post) 3600
    then (Ret (false, []), snoc w [EvNow now])
    else
      let kws := all_keywords (keywords (config (bot w))) post in
      (Ret (if negb (bool_decide (kws = [])) && (0 <=? post_score post)
            then (true, kws) else (false, [])),
       snoc w ([EvNow now; EvDetect (post_title post)] ++ selftext_events post)).
Proof.
  unfold should_respond_to_post, all_keywords, selftext_events.
  rewrite bind_run. cbn [get].
  case_bool_decide; [reflexivity |].
  rewrite bind_run. cbn [time_time].
  destruct (Qgtb _ _); [reflexivity |].
  erewrite bind_ret by apply detect_keywords_run.
  destruct (post_selftext post) as [body|].
  - erewrite bind_ret by apply detect_keywords_run.
    rewrite !snoc_snoc. cbn [bot snoc set_trace].
    destruct (_ && _); reflexivity.
  - rewrite bind_run. cbn [mret M_ret]. rewrite !snoc_snoc.
    cbn [bot snoc set_trace]. destruct (_ && _); reflexivity.
Qed.

Lemma all_keywords_elem (K : list string) (post : Post) (k : string) :
  k ∈ all_keywords K post <-> matched K post k.
Proof.
  unfold all_keywords, matched.
  rewrite elem_of_elements, elem_of_list_to_set, elem_of_app, found_keywords_elem.
  destruct (post_selftext post) as [body|].
  - rewrite found_keywords_elem. split.
    + intros [[? ?] | [? ?]]; split; eauto.
    + intros [? [? | [b [[= <-] ?]]]]; eauto.
  - split.
    + intros [[? ?] | []%elem_of_nil]; split; eauto.
    + intros [? [? | [b [[=] ?]]]]; eauto.
Qed.

Lemma all_keywords_NoDup (K : list string) (post : Post) :
  NoDup (all_keywords K post).
Proof. apply NoDup_elements. Qed.

Lemma all_keywords_nil (K : list string) (post : Post) :
  all_keywords K post = [] <-> ~ exists k, matched K post k.
Proof.
  split.
  - intros H [k Hk]. apply all_keywords_elem in Hk. rewrite H in Hk.
    by apply elem_of_nil in Hk.
  - intros H. apply elem_of_nil_inv. intros k Hk. apply H. exists k.
    by apply all_keywords_elem.
Qed.

(** C1: [should_respond_to_post] never raises and touches nothing but the call
    trace.  Its rules apply in order.  (1) A post whose id is in the processed
    set is not eligible, and neither the clock is read nor any keyword
    computed.  (2) Otherwise, when now minus the creation time exceeds 3600
    seconds the post is not eligible, and no keyword is computed.
    (3) Otherwise the keywords are computed over the title and, when present,
    the body; the post is eligible iff some configured keyword matches and
    its score is at least 0, and then the returned keywords are exactly the
    matched ones, without duplicates.  (4) Whenever the post is not eligible
    the returned keyword list is empty. *)
Theorem should_respond_to_post_spec (env : Env) (post : Post) (w : World) :
  let processed := processed_posts (bot w) in
  let K := keywords (config (bot w)) in
  let now := env_time env (trace w) in
  let age := (now - post_created_utc post)%Q in
  exists (eligible : bool) (kws : list string) (evs : Trace),
    should_respond_to_post env post w = (Ret (eligible, kws), snoc w evs)
    /\ (post_id post ∈ processed -> eligible = false /\ evs = [])
    /\ (post_id post ∉ processed -> (3600 < age)%Q ->
          eligible = false /\ evs = [EvNow now])
    /\ (post_id post ∉ processed -> ~ (3600 < age)%Q ->
          evs = [EvNow now; EvDetect (post_title post)] ++ selftext_events post
          /\ (eligible = true <-> (exists k, matched K post k) /\ 0 <= post_score post)
          /\ (eligible = true -> NoDup kws /\ forall k, k ∈ kws <-> matched K post k))
    /\ (eligible = false -> kws = []).
Proof.
  intros processed K now age. rewrite should_respond_run. fold processed K now age.
  case_bool_decide as Hin.
  { exists false, [], []. rewrite snoc_nil.
    split; [done |]. split; [done |].
    split; [intros; contradiction |]. split; [intros; contradiction | done]. }
  cbv zeta. fold now age.
  destruct (Qgtb age 3600) eqn:Hage.
  { apply Qgtb_iff in Hage. exists false, [], [EvNow now].
    split; [done |]. split; [intros; contradiction |]. split; [done |].
    split; [intros; contradiction | done]. }
  assert (~ (3600 < age)%Q) as Hyoung.
  { intros H%Qgtb_iff. congruence. }
  set (evs := [EvNow now; EvDetect (post_title post)] ++ selftext_events post).
  case_bool_decide as Hnil; cbn [negb andb].
  { exists false, [], evs.
    split; [done |]. split; [intros; contradiction |].
    split; [intros; contradiction |]. split; [| done].
    intros _ _. split; [done |]. split; [| done].
    split; [done |]. intros [Hk _]. by apply all_keywords_nil in Hnil. }
  destruct (Z.leb_spec 0 (post_score post)) as [Hs | Hs].
  - exists true, (all_keywords K post), evs.
    split; [done |]. split; [intros; contradiction |].
    split; [intros; contradiction |]. split; [| done].
    intros _ _. split; [done |]. split.
    + split; [intros _ | done]. split; [| done].
      destruct (all_keywords K post) as [|k l] eqn:E; [done |].
      exists k. apply all_keywords_elem. rewrite E. by left.
    + intros _. split; [apply all_keywords_NoDup | apply all_keywords_elem].
  - exists false, [], evs.
    split; [done |]. split; [intros; contradiction |].
    split; [intros; contradiction |]. split; [| done].
    intros _ _. split; [done |]. split; [| done].
    split; [done |]. intros [_ ?]. lia.
Qed.

(** ** Response Generator, Responder, Interaction Logger *)

Lemma try_except_run {A : Type} (m : M A) (h : exn -> M A) (w : World) :
  try_except m h w = match m w with
                     | (Ret a, w') => (Ret a, w')
                     | (Raise e, w') => h e w'
                     end.
Proof. reflexivity. Qed.

Lemma ret_run {A : Type} (a : A) (w : World) : (mret a : M A) w = (Ret a, w).
Proof. reflexivity. Qed.

Lemma get_run {A : Type} (f : World -> A) (w : World) : get f w = (Ret (f w), w).
Proof. reflexivity. Qed.

Lemma raise_run {A : Type} (e : exn) (w : World) : (raise e : M A) w = (Raise e, w).
Proof. reflexivity. Qed.

Lemma bot_snoc (w : World) (evs : Trace) : bot (snoc w evs) = bot w.
Proof. reflexivity. Qed.

Lemma db_snoc (w : World) (evs : Trace) : db (snoc w evs) = db w.
Proof. reflexivity. Qed.

Lemma gui_snoc (w : World) (evs : Trace) : gui (snoc w evs) = gui w.
Proof. reflexivity. Qed.

Lemma trace_snoc (w : World) (evs : Trace) : trace (snoc w evs) = trace w ++ evs.
Proof. reflexivity. Qed.

(** One step of symbolic execution of straight-line monadic code. *)
Ltac mstep :=
  first
    [ rewrite bind_run
    | rewrite ret_run
    | rewrite get_run
    | rewrite raise_run
    | rewrite log_run
    | rewrite emit_run
    | rewrite try_except_run
    | rewrite snoc_snoc
    | rewrite bot_snoc
    | rewrite db_snoc
    | rewrite gui_snoc
    | rewrite trace_snoc
    | progress cbn [List.app] ].

Ltac mrun := repeat mstep.

(** [generate_response], branch by branch: it never raises. *)
Lemma generate_response_run (env : Env) (post : Post) (kws : list string) (w : World) :
  let prompt := build_prompt post kws in
  let r := env_generate env (trace w) prompt in
  let gd := gemini_delay (config (bot w)) in
  generate_response env post kws w =
  match r with
  | GenRaises =>
      (Ret None, snoc w [EvGenerate prompt r; EvLog ERROR (MsgErrorGenerating GeminiError)])
  | GenNoText =>
      if gd <? 0
      then (Ret None, snoc w [EvGenerate prompt r; EvLog ERROR (MsgErrorGenerating ValueError)])
      else (Ret None, snoc w [EvGenerate prompt r; EvSleep gd;
                              EvLog ERROR (MsgErrorGenerating NoTextError)])
  | GenText s =>
      if gd <? 0
      then (Ret None, snoc w [EvGenerate prompt r; EvLog ERROR (MsgErrorGenerating ValueError)])
      else (Ret (Some s), snoc w [EvGenerate prompt r; EvSleep gd])
  end.
Proof.
  intros prompt r gd.
  unfold generate_response. fold prompt. rewrite try_except_run, bind_run.
  unfold generate_content. fold r.
  destruct r as [| |s]; mrun; try reflexivity;
    fold gd; unfold sleep; destruct (gd <? 0); mrun;
    cbn [response_text]; mrun; reflexivity.
Qed.

(** [post_response], branch by branch: it never raises, and answers [True]
    exactly when the reply went through. *)
Lemma post_response_run (env : Env) (post : Post) (text : string) (w : World) :
  let lo := fst (response_delay (config (bot w))) in
  let hi := snd (response_delay (config (bot w))) in
  let v := lo + env_randint env (trace w) mod (hi - lo + 1) in
  let waited := [EvRandint lo hi v; EvLog INFO (MsgWaiting v); EvSleep v] in
  post_response env post text w =
  if hi <? lo then (Ret false, snoc w [EvLog ERROR (MsgFailedPost ValueError)])
  else if v <? 0
  then (Ret false, snoc w [EvRandint lo hi v; EvLog INFO (MsgWaiting v);
                           EvLog ERROR (MsgFailedPost ValueError)])
  else if env_reply env (trace w ++ waited) post text
  then (Ret true, snoc w (waited ++ [EvReply (post_id post) text true;
                                     EvLog INFO (MsgPosted (post_id post))]))
  else (Ret false, snoc w (waited ++ [EvReply (post_id post) text false;
                                      EvLog ERROR (MsgFailedPost RedditError)])).
Proof.
  intros lo hi v waited.
  unfold post_response. mrun. fold lo hi. unfold random_randint.
  destruct (hi <? lo); [mrun; reflexivity |]. fold v. mrun.
  unfold sleep. destruct (v <? 0); [mrun; reflexivity |]. mrun.
  unfold post_reply. mrun. fold waited.
  destruct (env_reply env (trace w ++ waited) post text); mrun; reflexivity.
Qed.

Lemma modify_run (f : World -> World) (w : World) : modify f w = (Ret tt, f w).
Proof. reflexivity. Qed.

Lemma conn_check_run (w : World) :
  conn_check w = if conn_open (bot w) then (Ret tt, w) else (Raise ProgrammingError, w).
Proof. unfold conn_check. mrun. destruct (conn_open (bot w)); reflexivity. Qed.

Lemma sqlite_run (env : Env) (op : DbOp) (w : World) :
  sqlite env op w =
  if env_db_ok env (trace w) op then (Ret tt, snoc w [EvDb op true])
  else (Raise OperationalError, snoc w [EvDb op false]).
Proof. unfold sqlite. destruct (env_db_ok env (trace w) op); reflexivity. Qed.

(** [log_interaction], branch by branch.  It raises on a closed connection
    and when SQLite refuses the INSERT or the commit; otherwise the row, and
    whatever was left uncommitted on the connection, is in the table. *)
Lemma log_interaction_run (env : Env) (post : Post) (kws : list string)
    (response : option string) (success : bool) (w : World) :
  let now := env_time env (trace w) in
  let row := interaction_row now post kws response success in
  log_interaction env post kws response success w =
  if conn_open (bot w) then
    if env_db_ok env (trace w ++ [EvNow now]) (OpInsert row) then
      if env_db_ok env (trace w ++ [EvNow now; EvDb (OpInsert row) true]) OpCommit then
        (Ret tt,
         {| trace := trace w ++ [EvNow now; EvDb (OpInsert row) true; EvDb OpCommit true];
            bot := with_conn true [] (bot w);
            db := {| interactions := interactions (db w) ++ pending (bot w) ++ [row];
                     performance_metrics := performance_metrics (db w) |};
            gui := gui w |})
      else
        (Raise OperationalError,
         {| trace := trace w ++ [EvNow now; EvDb (OpInsert row) true; EvDb OpCommit false];
            bot := with_conn true (pending (bot w) ++ [row]) (bot w);
            db := db w;
            gui := gui w |})
    else (Raise OperationalError, snoc w [EvNow now; EvDb (OpInsert row) false])
  else (Raise ProgrammingError, w).
Proof.
  intros now row. unfold log_interaction.
  rewrite bind_run, conn_check_run.
  destruct (conn_open (bot w)) eqn:Hopen; [| reflexivity].
  rewrite bind_run. unfold time_time. fold now. fold row.
  rewrite bind_run. unfold cursor_execute_insert.
  rewrite bind_run, conn_check_run, bot_snoc, Hopen.
  rewrite bind_run, sqlite_run, trace_snoc.
  destruct (env_db_ok env (trace w ++ [EvNow now]) (OpInsert row));
    [| by rewrite snoc_snoc].
  rewrite snoc_snoc, modify_run. cbn [List.app].
  unfold conn_commit. rewrite bind_run, conn_check_run.
  cbn [bot set_bot snoc set_trace conn_open with_conn].
  rewrite bind_run, sqlite_run.
  unfold snoc, set_trace, set_bot, set_db, with_conn.
  cbn [trace bot db gui config processed_posts conn_open pending].
  rewrite <- !app_assoc. cbn [List.app].
  destruct (env_db_ok env (trace w ++ [EvNow now; EvDb (OpInsert row) true]) OpCommit).
  - rewrite modify_run. cbn. rewrite <- ?app_assoc. reflexivity.
  - reflexivity.
Qed.

(** ** Scan Cycle *)

Lemma generate_calls_app (a b : Trace) :
  generate_calls (a ++ b) = (generate_calls a + generate_calls b)%nat.
Proof. unfold generate_calls. by rewrite List.filter_app, length_app. Qed.

Lemma ok_replies_app (a b : Trace) : ok_replies (a ++ b) = ok_replies a ++ ok_replies b.
Proof. unfold ok_replies. apply flat_map_app. Qed.

Lemma processed_add_run (id : string) (w : World) :
  processed_add id w =
  (Ret tt, set_bot (with_processed (processed_posts (bot w) ∪ {[id]}) (bot w)) w).
Proof. reflexivity. Qed.

(** [generate_response] never raises and only adds to the trace: one call of
    Gemini, no reply. *)
Lemma generate_response_spec (env : Env) (post : Post) (kws : list string) (w : World) :
  exists (res : option string) (evs : Trace),
    generate_response env post kws w = (Ret res, snoc w evs)
    /\ generate_calls evs = 1%nat
    /\ ok_replies evs = [].
Proof.
  rewrite generate_response_run.
  destruct (env_generate _ _ _); try destruct (_ <? 0); eauto.
Qed.

(** [post_response] never raises and only adds to the trace: no call of
    Gemini, and the reply went through exactly when the answer is [True]. *)
Lemma post_response_spec (env : Env) (post : Post) (text : string) (w : World) :
  exists (success : bool) (evs : Trace),
    post_response env post text w = (Ret success, snoc w evs)
    /\ generate_calls evs = 0%nat
    /\ ok_replies evs = if success then [post_id post] else [].
Proof.
  rewrite post_response_run.
  repeat match goal with
         | |- context [if ?c then _ else _] => destruct c
         end; eauto.
Qed.

(** [log_interaction] leaves the processed set, the configuration and the GUI
    alone, calls neither Gemini nor Reddit, and only ever adds rows. *)
Lemma log_interaction_spec (env : Env) (post : Post) (kws : list string)
    (response : option string) (success : bool) (w : World) :
  let res := log_interaction env post kws response success w in
  let w' := snd res in
  exists evs : Trace,
    trace w' = trace w ++ evs
    /\ gui w' = gui w
    /\ config (bot w') = config (bot w)
    /\ conn_open (bot w') = conn_open (bot w)
    /\ processed_posts (bot w') = processed_posts (bot w)
    /\ generate_calls evs = 0%nat
    /\ ok_replies evs = []
    /\ (exists rows, interactions (db w') = interactions (db w) ++ rows)
    /\ (fst res = Ret tt -> pending (bot w') = [])
    /\ (store_ok env -> conn_open (bot w) = true -> fst res = Ret tt).
Proof.
  intros res w'. subst w' res. rewrite log_interaction_run.
  destruct (conn_open (bot w)) eqn:Hopen.
  - destruct (env_db_ok _ _ (OpInsert _)) eqn:Hins.
    + destruct (env_db_ok _ _ OpCommit) eqn:Hcommit.
      * eexists. cbn. split_and!; try done. by eexists.
      * eexists. cbn. split_and!; try done.
        -- exists []. by rewrite app_nil_r.
        -- intros Hok. by rewrite Hok in Hcommit.
    + eexists. cbn. split_and!; try done.
      * exists []. by rewrite app_nil_r.
      * intros Hok. by rewrite Hok in Hins.
  - exists []. cbn. rewrite app_nil_r. split_and!; try done.
    exists []. by rewrite app_nil_r.
Qed.

(** What the block under [if should_respond:] does, on every path. *)
Lemma respond_spec (env : Env) (post : Post) (kws : list string) (r : nat) (w : World) :
  let res := respond env post kws r w in
  let w' := snd res in
  exists evs : Trace,
    trace w' = trace w ++ evs
    /\ gui w' = gui w
    /\ config (bot w') = config (bot w)
    /\ conn_open (bot w') = conn_open (bot w)
    /\ generate_calls evs = 1%nat
    /\ (ok_replies evs = [] \/ ok_replies evs = [post_id post])
    /\ (exists rows, interactions (db w') = interactions (db w) ++ rows)
    /\ match fst res with
       | Ret r' =>
           r' = (r + length (ok_replies evs))%nat
           /\ processed_posts (bot w') =
              processed_posts (bot w) ∪ list_to_set (ok_replies evs)
           /\ (pending (bot w) = [] -> pending (bot w') = [])
       | Raise _ => processed_posts (bot w') = processed_posts (bot w)
       end
    /\ (store_ok env -> conn_open (bot w) = true -> exists r', fst res = Ret r').
Proof.
  intros res w'. subst w' res. unfold respond.
  rewrite bind_run, log_run.
  set (found := EvLog INFO (MsgFoundRelevant (PyStr.take 50 (post_title post)))).
  destruct (generate_response_spec env post kws (snoc w [found]))
    as (res & evs1 & Hgen & Hcalls1 & Hrep1).
  rewrite bind_run, Hgen, snoc_snoc.
  destruct (response_truthy res) eqn:Htruthy.
  2: { rewrite ret_run. exists ([found] ++ evs1).
       assert (generate_calls ([found] ++ evs1) = 1%nat) as Hcalls
         by (rewrite generate_calls_app, Hcalls1; reflexivity).
       assert (ok_replies ([found] ++ evs1) = []) as Hrep
         by (rewrite ok_replies_app, Hrep1; reflexivity).
       rewrite Hrep, Hcalls. cbn [fst snd]. mrun. cbn [length list_to_set].
       split_and!; try done; try lia.
       - by left.
       - exists []. by rewrite app_nil_r.
       - symmetry. apply (right_id_L ∅ (∪)).
       - eauto. }
  destruct (post_response_spec env post (default "" res) (snoc w ([found] ++ evs1)))
    as (success & evs2 & Hpost & Hcalls2 & Hrep2).
  rewrite bind_run, Hpost, snoc_snoc, bind_run.
  destruct (log_interaction_spec env post kws res success
              (snoc w (([found] ++ evs1) ++ evs2)))
    as (evs3 & Htr & Hgui & Hcfg & Hopen & Hproc & Hcalls3 & Hrep3 & [rows Hrows]
        & Hpend & Hok).
  destruct (log_interaction env post kws res success _) as [o w3].
  cbn [fst snd] in *.
  exists ((([found] ++ evs1) ++ evs2) ++ evs3).
  assert (generate_calls ((([found] ++ evs1) ++ evs2) ++ evs3) = 1%nat) as Hcalls.
  { rewrite !generate_calls_app, Hcalls1, Hcalls2, Hcalls3. reflexivity. }
  assert (ok_replies ((([found] ++ evs1) ++ evs2) ++ evs3)
          = if success then [post_id post] else []) as Hrep.
  { rewrite !ok_replies_app, Hrep1, Hrep2, Hrep3. cbn. by rewrite app_nil_r. }
  rewrite Hrep.
  destruct o as [[] | e].
  - destruct success.
    + rewrite bind_run, processed_add_run, ret_run. rewrite Hcalls.
      cbn [fst snd bot gui db trace set_bot with_processed config conn_open
           processed_posts pending length list_to_set].
      rewrite Htr, Hgui, Hcfg, Hopen, Hproc, Hrows. mrun.
      split_and!; try done; try lia.
      * rewrite <- app_assoc; reflexivity.
      * by right.
      * by eexists.
      * by rewrite (right_id_L ∅ (∪)).
      * intros _. by apply Hpend.
      * eauto.
    + rewrite ret_run. rewrite Hcalls. cbn [fst snd length list_to_set].
      rewrite Htr, Hgui, Hcfg, Hopen, Hproc, Hrows. mrun.
      split_and!; try done; try lia.
      * rewrite <- app_assoc; reflexivity.
      * by left.
      * by eexists.
      * by rewrite (right_id_L ∅ (∪)).
      * intros _. by apply Hpend.
      * eauto.
  - rewrite Hcalls. cbn [fst snd].
    rewrite Htr, Hgui, Hcfg, Hopen, Hproc, Hrows. mrun.
    split_and!; try done.
    + rewrite <- app_assoc; reflexivity.
    + destruct success; [by right | by left].
    + by eexists.
    + intros Hs Hc. by specialize (Hok Hs Hc).
Qed.

(** [should_respond_to_post] never raises and only adds clock readings and
    keyword computations to the trace. *)
Lemma should_respond_frame (env : Env) (post : Post) (w : World) :
  exists (eligible : bool) (kws : list string) (evs : Trace),
    should_respond_to_post env post w = (Ret (eligible, kws), snoc w evs)
    /\ generate_calls evs = 0%nat
    /\ ok_replies evs = [].
Proof.
  rewrite should_respond_run. case_bool_decide.
  { exists false, [], []. by rewrite snoc_nil. }
  cbv zeta. destruct (Qgtb _ _); [by eexists _, _, _ |].
  destruct (_ && _); eexists _, _, _; (split; [reflexivity |]);
    unfold selftext_events; by destruct (post_selftext post).
Qed.

(** What one turn of the loop of [scan_subreddit] does, on every path. *)
Lemma scan_post_spec (env : Env) (post : Post) (c : nat * nat) (w : World) :
  let res := scan_post env post c w in
  let w' := snd res in
  let rd := reddit_delay (config (bot w)) in
  exists evs : Trace,
    trace w' = trace w ++ evs
    /\ gui w' = gui w
    /\ config (bot w') = config (bot w)
    /\ conn_open (bot w') = conn_open (bot w)
    /\ (generate_calls evs <= 1)%nat
    /\ (ok_replies evs = [] \/ ok_replies evs = [post_id post])
    /\ (exists rows, interactions (db w') = interactions (db w) ++ rows)
    /\ processed_posts (bot w) ⊆ processed_posts (bot w')
    /\ processed_posts (bot w') ⊆
         processed_posts (bot w) ∪ list_to_set (ok_replies evs)
    /\ match fst res with
       | Ret (s', r') =>
           s' = S (fst c)
           /\ r' = (snd c + length (ok_replies evs))%nat
           /\ processed_posts (bot w') =
              processed_posts (bot w) ∪ list_to_set (ok_replies evs)
           /\ (pending (bot w) = [] -> pending (bot w') = [])
           /\ exists pre, evs = pre ++ [EvSleep rd]
       | Raise _ => True
       end
    /\ (store_ok env -> conn_open (bot w) = true -> 0 <= rd ->
        exists c', fst res = Ret c').
Proof.
  intros res w' rd. subst w' res. unfold scan_post.
  destruct (should_respond_frame env post w)
    as (eligible & kws & evs0 & Hsr & Hcalls0 & Hrep0).
  rewrite bind_run, Hsr. cbn [fst snd].
  destruct eligible.
  - (* eligible: the response block runs *)
    destruct (respond_spec env post kws (snd c) (snoc w evs0))
      as (evs1 & Htr & Hgui & Hcfg & Hopen & Hcalls1 & Hrep1 & [rows Hrows]
          & Hout & Hok).
    rewrite bind_run.
    destruct (respond env post kws (snd c) (snoc w evs0)) as [[r' | e] w1];
      cbn [fst snd] in *; rewrite trace_snoc in Htr;
      rewrite gui_snoc in Hgui; rewrite bot_snoc in Hcfg, Hopen; rewrite db_snoc in Hrows.
    + destruct Hout as (Hr' & Hproc & Hpend). rewrite bot_snoc in Hproc, Hpend.
      rewrite bind_run, get_run, bind_run. rewrite Hcfg. fold rd.
      assert (ok_replies (evs0 ++ evs1) = ok_replies evs1) as Hrep
        by (by rewrite ok_replies_app, Hrep0).
      assert (generate_calls (evs0 ++ evs1) = 1%nat) as Hcalls
        by (by rewrite generate_calls_app, Hcalls0, Hcalls1).
      destruct (Z.ltb_spec rd 0) as [Hneg | Hpos].
      * rewrite sleep_neg by done. exists (evs0 ++ evs1). cbn [fst snd].
        rewrite Hrep, Hcalls, Htr, Hgui, Hcfg, Hopen, Hproc, Hrows.
        split_and!; try done.
        -- by rewrite app_assoc.
        -- by eexists.
        -- apply union_subseteq_l.
        -- intros _ _ ?. lia.
      * rewrite sleep_run by done. mrun. exists ((evs0 ++ evs1) ++ [EvSleep rd]).
        cbn [fst snd]. mrun.
        rewrite !ok_replies_app, !generate_calls_app, Hrep0, Hcalls0, Hcalls1.
        cbn [ok_replies flat_map generate_calls List.filter length List.app].
        rewrite !app_nil_r, Htr, Hgui, Hcfg, Hopen, Hproc, Hrows.
        split_and!; try done; try lia.
        -- by rewrite <- !app_assoc.
        -- by eexists.
        -- apply union_subseteq_l.
        -- by eexists.
        -- eauto.
    + rewrite bot_snoc in Hout. exists (evs0 ++ evs1). cbn [fst snd].
      rewrite ok_replies_app, generate_calls_app, Hrep0, Hcalls0, Hcalls1.
      cbn [List.app]. rewrite Htr, Hgui, Hcfg, Hopen, Hout, Hrows.
      split_and!; try done.
      * by rewrite app_assoc.
      * by eexists.
      * apply union_subseteq_l.
      * intros Hs Hc _. destruct (Hok Hs Hc) as [? [=]].
  - (* not eligible: only the pause *)
    rewrite bind_run, ret_run, bind_run, get_run, bind_run, bot_snoc. fold rd.
    destruct (Z.ltb_spec rd 0) as [Hneg | Hpos].
    + rewrite sleep_neg by done. exists evs0. cbn [fst snd]. mrun.
      rewrite Hrep0, Hcalls0. cbn [list_to_set].
      split_and!; try done; try lia.
      * by left.
      * exists []. by rewrite app_nil_r.
      * apply union_subseteq_l.
    + rewrite sleep_run by done. mrun. exists (evs0 ++ [EvSleep rd]).
      cbn [fst snd]. mrun.
      rewrite !ok_replies_app, !generate_calls_app, Hrep0, Hcalls0.
      cbn [ok_replies flat_map generate_calls List.filter length List.app list_to_set].
      split_and!; try done; try lia.
      * by left.
      * exists []. by rewrite app_nil_r.
      * apply union_subseteq_l.
      * by rewrite (right_id_L ∅ (∪)).
      * by eexists.
      * eauto.
Qed.

(** The per-post stretches of a scan: each ends with the pause of [rd] seconds. *)
Lemma scan_posts_spec (env : Env) (posts : list Post) (c : nat * nat) (w : World) :
  let res := scan_posts env posts c w in
  let w' := snd res in
  let rd := reddit_delay (config (bot w)) in
  exists evs : Trace,
    trace w' = trace w ++ evs
    /\ gui w' = gui w
    /\ config (bot w') = config (bot w)
    /\ conn_open (bot w') = conn_open (bot w)
    /\ (generate_calls evs <= length posts)%nat
    /\ (exists rows, interactions (db w') = interactions (db w) ++ rows)
    /\ processed_posts (bot w) ⊆ processed_posts (bot w')
    /\ processed_posts (bot w') ⊆
         processed_posts (bot w) ∪ list_to_set (ok_replies evs)
    /\ match fst res with
       | Ret (s', r') =>
           s' = (fst c + length posts)%nat
           /\ r' = (snd c + length (ok_replies evs))%nat
           /\ processed_posts (bot w') =
              processed_posts (bot w) ∪ list_to_set (ok_replies evs)
           /\ (pending (bot w) = [] -> pending (bot w') = [])
           /\ exists segs : list Trace,
                evs = concat segs
                /\ length segs = length posts
                /\ Forall (fun seg => exists pre, seg = pre ++ [EvSleep rd]) segs
       | Raise _ => True
       end
    /\ (store_ok env -> conn_open (bot w) = true -> 0 <= rd ->
        exists c', fst res = Ret c').
Proof.
  revert c w. induction posts as [| post rest IH]; intros c w res w' rd;
    subst res w'.
  { cbn [scan_posts]. rewrite ret_run. exists []. cbn [fst snd length].
    rewrite app_nil_r. destruct c as [s r]. cbn [fst snd ok_replies flat_map length list_to_set].
    split_and!; try done; try lia.
    - exists []. by rewrite app_nil_r.
    - apply union_subseteq_l.
    - by rewrite (right_id_L ∅ (∪)).
    - by exists [].
    - eauto. }
  cbn [scan_posts]. rewrite bind_run.
  destruct (scan_post_spec env post c w)
    as (evs1 & Htr1 & Hgui1 & Hcfg1 & Hopen1 & Hcalls1 & Hrep1 & [rows1 Hrows1]
        & Hsub1 & Hsup1 & Hout1 & Hok1).
  destruct (scan_post env post c w) as [[[s1 r1] | e] w1]; cbn [fst snd] in *.
  2: { exists evs1. cbn [length].
       split_and!; try done; try lia;
         first [ by eexists
               | intros Hs Hc Hrd; by destruct (Hok1 Hs Hc Hrd) as [? [=]] ]. }
  destruct Hout1 as (Hs1 & Hr1 & Hproc1 & Hpend1 & [pre1 Hpre1]).
  specialize (IH (s1, r1) w1).
  destruct IH as (evs2 & Htr2 & Hgui2 & Hcfg2 & Hopen2 & Hcalls2 & [rows2 Hrows2]
                  & Hsub2 & Hsup2 & Hout2 & Hok2).
  rewrite Hcfg1 in Hout2, Hok2. fold rd in Hout2, Hok2, Hpre1.
  exists (evs1 ++ evs2).
  rewrite Htr2, Htr1, Hgui2, Hgui1, Hcfg2, Hcfg1, Hopen2, Hopen1, Hrows2, Hrows1.
  rewrite ok_replies_app, generate_calls_app, list_to_set_app_L.
  cbn [length].
  split_and!; try done; try lia.
  - by rewrite app_assoc.
  - exists (rows1 ++ rows2). by rewrite app_assoc.
  - by etrans.
  - etrans; [exact Hsup2 |]. rewrite (assoc_L (∪)). by apply union_mono_r.
  - destruct (scan_posts env rest (s1, r1) w1) as [[[s2 r2] | e] w2];
      cbn [fst snd] in *; [| done].
    destruct Hout2 as (Hs2 & Hr2 & Hproc2 & Hpend2 & segs & Hsegs & Hlen & Hall).
    rewrite length_app. split_and!; try lia.
    + rewrite Hproc2, Hproc1. by rewrite (assoc_L (∪)).
    + intros Hp. by apply Hpend2, Hpend1.
    + exists (evs1 :: segs). cbn [concat length]. split_and!.
      * by rewrite Hsegs.
      * by rewrite Hlen.
      * constructor; [by eexists | done].
  - intros Hs Hc Hrd. apply Hok2; try done. by rewrite Hopen1.
Qed.

Lemma subreddit_new_run (env : Env) (name : string) (limit : Z) (w : World) :
  subreddit_new env name limit w =
  match env_new env (trace w) name limit with
  | Some newest =>
      let posts := take (Z.to_nat limit) newest in
      (Ret posts, snoc w [EvFetch name limit (Some (length posts))])
  | None => (Raise RedditError, snoc w [EvFetch name limit None])
  end.
Proof. reflexivity. Qed.

(** [scan_subreddit] never raises; it leaves the GUI, the configuration and
    the connection alone, and only ever adds rows and processed ids, the
    latter only for replies that went through. *)
Lemma scan_subreddit_frame (env : Env) (name : string) (limit : Z) (w : World) :
  exists (w' : World) (evs : Trace),
    scan_subreddit env name limit w = (Ret tt, w')
    /\ trace w' = trace w ++ evs
    /\ gui w' = gui w
    /\ config (bot w') = config (bot w)
    /\ conn_open (bot w') = conn_open (bot w)
    /\ (exists rows, interactions (db w') = interactions (db w) ++ rows)
    /\ processed_posts (bot w) ⊆ processed_posts (bot w')
    /\ processed_posts (bot w') ⊆
         processed_posts (bot w) ∪ list_to_set (ok_replies evs).
Proof.
  unfold scan_subreddit. rewrite try_except_run, bind_run, log_run, bind_run.
  rewrite subreddit_new_run, trace_snoc.
  set (scanning := EvLog INFO (MsgScanning name)).
  destruct (env_new env (trace w ++ [scanning]) name limit) as [newest |].
  2: { mrun. eexists _, _. split; [reflexivity |]. mrun.
       split_and!; try done.
       - exists []. by rewrite app_nil_r.
       - apply union_subseteq_l. }
  cbv zeta. rewrite snoc_snoc. cbn [List.app].
  set (posts := take (Z.to_nat limit) newest).
  set (w1 := snoc w [scanning; EvFetch name limit (Some (length posts))]).
  destruct (scan_posts_spec env posts (0%nat, 0%nat) w1)
    as (evs & Htr & Hgui & Hcfg & Hopen & _ & [rows Hrows] & Hsub & Hsup & _ & _).
  rewrite bind_run.
  set (fetched := EvFetch name limit (Some (length posts))) in *.
  assert (forall last : Trace,
            ok_replies last = [] ->
            ok_replies ([scanning; fetched] ++ evs ++ last) = ok_replies evs) as Hrep.
  { intros last Hlast. rewrite !ok_replies_app, Hlast. cbn. by rewrite app_nil_r. }
  destruct (scan_posts env posts (0%nat, 0%nat) w1) as [[[s r] | e] w2];
    cbn [fst snd] in *; mrun.
  - exists (snoc w2 [EvLog INFO (MsgScanned s r)]),
      ([scanning; fetched] ++ evs ++ [EvLog INFO (MsgScanned s r)]).
    rewrite Hrep by done. mrun. rewrite Htr, Hgui, Hcfg, Hopen, Hrows. subst w1. mrun.
    split_and!; try done; [by rewrite <- !app_assoc | by eexists].
  - exists (snoc w2 [EvLog ERROR (MsgErrorScanning name e)]),
      ([scanning; fetched] ++ evs ++ [EvLog ERROR (MsgErrorScanning name e)]).
    rewrite Hrep by done. mrun. rewrite Htr, Hgui, Hcfg, Hopen, Hrows. subst w1. mrun.
    split_and!; try done; [by rewrite <- !app_assoc | by eexists].
Qed.

Lemma last_snoc_event (evs : Trace) (e : Event) : last (evs ++ [e]) = Some e.
Proof. apply last_snoc. Qed.

(** C4, as stated, fails in its last part: [scan_subreddit] has no [return],
    so its caller gets [None] whatever was counted.  A scan of three posts
    that answers two and a scan of an empty forum return the same value; the
    counts 3, 2 and 0, 0 only appear in the closing log line. *)
Lemma scan_subreddit_returns_none :
  let busy := scan_subreddit Sample.env_ok "india" 25 (Sample.world_of ["help"; "question"]) in
  let idle := scan_subreddit Sample.env_quiet "india" 25 (Sample.world_of ["help"; "question"]) in
  fst busy = Ret tt
  /\ fst idle = Ret tt
  /\ last (trace (snd busy)) = Some (EvLog INFO (MsgScanned 3 2))
  /\ last (trace (snd idle)) = Some (EvLog INFO (MsgScanned 0 0)).
Proof. vm_compute. done. Qed.

(** C4 (amended): on the normal path (Reddit lists the forum, SQLite accepts
    every statement, the connection is open and the configured per-post delay
    is not negative) [scan_subreddit] fetches at most [limit] of the newest
    posts, counts every fetched post as scanned whatever its eligibility,
    counts as responded exactly the posts whose reply went through, sleeps the
    per-post delay at the end of every post's stretch of the run, and logs the
    two counts in its closing line.  It returns [None], not the counts. *)
Theorem scan_subreddit_counts (env : Env) (name : string) (limit : Z) (w : World)
    (newest : list Post) :
  let scanning := EvLog INFO (MsgScanning name) in
  let rd := reddit_delay (config (bot w)) in
  let posts := take (Z.to_nat limit) newest in
  let scanned := length posts in
  env_new env (trace w ++ [scanning]) name limit = Some newest ->
  store_ok env ->
  conn_open (bot w) = true ->
  0 <= rd ->
  exists (w' : World) (segs : list Trace),
    let responded := length (ok_replies (concat segs)) in
    scan_subreddit env name limit w = (Ret tt, w')
    /\ trace w' = trace w ++ [scanning; EvFetch name limit (Some scanned)]
                    ++ concat segs ++ [EvLog INFO (MsgScanned scanned responded)]
    /\ (Z.of_nat scanned <= Z.max 0 limit)
    /\ (scanned <= length newest)%nat
    /\ length segs = scanned
    /\ Forall (fun seg => exists pre, seg = pre ++ [EvSleep rd]) segs
    /\ processed_posts (bot w') =
       processed_posts (bot w) ∪ list_to_set (ok_replies (concat segs)).
Proof.
  intros scanning rd posts scanned Hfetch Hstore Hopen Hrd.
  unfold scan_subreddit. rewrite try_except_run, bind_run, log_run, bind_run.
  rewrite subreddit_new_run, trace_snoc. fold scanning. rewrite Hfetch.
  cbv zeta. fold posts scanned. rewrite snoc_snoc. cbn [List.app].
  set (fetched := EvFetch name limit (Some scanned)).
  set (w1 := snoc w [scanning; fetched]).
  destruct (scan_posts_spec env posts (0%nat, 0%nat) w1)
    as (evs & Htr & _ & _ & _ & _ & _ & _ & _ & Hout & Hok).
  destruct (Hok Hstore Hopen Hrd) as [[s r] Hret].
  rewrite bind_run.
  destruct (scan_posts env posts (0%nat, 0%nat) w1) as [o w2]; cbn [fst snd] in *.
  subst o. destruct Hout as (-> & -> & Hproc & _ & segs & -> & Hlen & Hall).
  mrun. exists (snoc w2 [EvLog INFO (MsgScanned scanned (length (ok_replies (concat segs))))]), segs.
  cbv zeta. mrun. rewrite Htr, Hproc. subst w1. mrun.
  split_and!; try done.
  - by rewrite <- !app_assoc.
  - subst scanned posts. rewrite length_take. lia.
  - subst scanned posts. rewrite length_take. lia.
Qed.

(** The scenario of the specification: three posts, A and C eligible, B two
    hours old. *)
Lemma scan_subreddit_counts_witness :
  exists (w' : World) (segs : list Trace),
    scan_subreddit Sample.env_ok "india" 25 (Sample.world_of ["help"; "question"]) = (Ret tt, w')
    /\ length segs = 3%nat
    /\ last (trace w') = Some (EvLog INFO (MsgScanned 3 (length (ok_replies (concat segs)))))
    /\ processed_posts (bot w') = ∅ ∪ list_to_set (ok_replies (concat segs)).
Proof.
  destruct (scan_subreddit_counts Sample.env_ok "india" 25
              (Sample.world_of ["help"; "question"])
              [Sample.post_a; Sample.post_b; Sample.post_c])
    as (w' & segs & Hrun & Htr & _ & _ & Hlen & _ & Hproc).
  - reflexivity.
  - intros h op. reflexivity.
  - reflexivity.
  - simpl. lia.
  - exists w', segs. split; [exact Hrun |]. split; [exact Hlen |].
    split; [| exact Hproc].
    rewrite Htr. rewrite !app_assoc. apply last_snoc_event.
Defined.

(** ** Generation failures *)

(** Symbolic execution that leaves the worlds as they are written. *)
Ltac mexec :=
  repeat first
    [ rewrite bind_run
    | rewrite ret_run
    | rewrite get_run
    | rewrite raise_run
    | rewrite log_run
    | rewrite emit_run
    | rewrite modify_run
    | rewrite try_except_run ].

(** What makes a post eligible only depends on the processed set, on the
    keywords and on the clock. *)
Lemma should_respond_again (env : Env) (post : Post) (kws : list string)
    (w w1 w2 : World) :
  should_respond_to_post env post w = (Ret (true, kws), w1) ->
  processed_posts (bot w2) = processed_posts (bot w) ->
  keywords (config (bot w2)) = keywords (config (bot w)) ->
  ~ (3600 < env_time env (trace w2) - post_created_utc post)%Q ->
  fst (should_respond_to_post env post w2) = Ret (true, kws).
Proof.
  rewrite !should_respond_run. intros Hsr Hproc Hkws Hage. rewrite Hproc, Hkws.
  case_bool_decide; [by inversion Hsr |]. cbv zeta in *.
  destruct (Qgtb (env_time env (trace w) - _) _); [by inversion Hsr |].
  destruct (Qgtb (env_time env (trace w2) - _) _) eqn:Hage2.
  { by apply Qgtb_iff in Hage2. }
  destruct (_ && _); by inversion Hsr.
Qed.

(** C3: take a post that the filter accepts, and let the call of Gemini fail
    (it raises, or its response has no text).  Then [generate_response]
    returns [None] after exactly one call, with the error logged last; the
    turn of the scan loop for that post makes no further call, leaves the
    store, the connection and the processed set as they were (no row, not
    even an uncommitted one, and the id is not added), and completes with the
    post counted as scanned and not as responded when the per-post delay is
    valid; and the filter accepts the post again on any later occasion within
    the age window, as long as the bot is unchanged. *)
Theorem generation_failure_skips_post (env : Env) (post : Post) (c : nat * nat)
    (kws : list string) (w w1 : World) :
  let found := EvLog INFO (MsgFoundRelevant (PyStr.take 50 (post_title post))) in
  let rd := reddit_delay (config (bot w)) in
  let pause := if rd <? 0 then [] else [EvSleep rd] in
  should_respond_to_post env post w = (Ret (true, kws), w1) ->
  (forall text,
     env_generate env (trace w1 ++ [found]) (build_prompt post kws) <> GenText text) ->
  exists (e : exn) (evs : Trace) (o : outcome (nat * nat)) (w' : World),
    generate_response env post kws (snoc w1 [found])
      = (Ret None, snoc w1 ([found] ++ evs))
    /\ generate_calls evs = 1%nat
    /\ last evs = Some (EvLog ERROR (MsgErrorGenerating e))
    /\ scan_post env post c w = (o, w')
    /\ trace w' = trace w1 ++ [found] ++ evs ++ pause
    /\ bot w' = bot w
    /\ db w' = db w
    /\ gui w' = gui w
    /\ (post_id post ∉ processed_posts (bot w'))
    /\ (0 <= rd -> o = Ret (S (fst c), snd c))
    /\ (forall w2 : World,
          bot w2 = bot w' ->
          ~ (3600 < env_time env (trace w2) - post_created_utc post)%Q ->
          fst (should_respond_to_post env post w2) = Ret (true, kws)).
Proof.
  intros found rd pause Hsr Hfail. subst pause.
  destruct (should_respond_frame env post w)
    as (eligible & kws' & evs0 & Hsr' & _ & _).
  rewrite Hsr in Hsr'. injection Hsr' as <- <- ->.
  assert (post_id post ∉ processed_posts (bot w)) as Hfresh.
  { rewrite should_respond_run in Hsr. case_bool_decide; [by inversion Hsr | done]. }
  assert (exists e evs,
            generate_response env post kws (snoc (snoc w evs0) [found])
              = (Ret None, snoc (snoc w evs0) ([found] ++ evs))
            /\ generate_calls evs = 1%nat
            /\ last evs = Some (EvLog ERROR (MsgErrorGenerating e)))
    as (e & evs & Hgen & Hcalls & Hlast).
  { rewrite generate_response_run, !trace_snoc, !bot_snoc.
    rewrite trace_snoc in Hfail.
    destruct (env_generate env ((trace w ++ evs0) ++ [found]) (build_prompt post kws))
      as [| | text]; [| | by destruct (Hfail text)];
      try destruct (_ <? 0); eexists _, _;
      (split; [by rewrite (snoc_snoc (snoc w evs0)) |]); done. }
  assert (scan_post env post c w =
          (if rd <? 0 then Raise ValueError else Ret (S (fst c), snd c),
           snoc (snoc w evs0)
             ([found] ++ evs ++ (if rd <? 0 then [] else [EvSleep rd])))) as Hscan.
  { unfold scan_post. rewrite bind_run, Hsr. cbn [fst snd]. unfold respond.
    mexec. fold found. rewrite Hgen. cbn [response_truthy].
    mexec. rewrite !bot_snoc. fold rd.
    destruct (Z.ltb_spec rd 0) as [Hneg | Hpos].
    - rewrite sleep_neg by done. by rewrite app_nil_r.
    - rewrite sleep_run by done. mrun. by do 2 f_equal. }
  exists e, evs. eexists _, _.
  split; [exact Hgen |]. split; [exact Hcalls |]. split; [exact Hlast |].
  split; [exact Hscan |]. mrun.
  split_and!; try done.
  - by rewrite app_assoc.
  - intros Hpos. destruct (Z.ltb_spec rd 0); [lia | done].
  - intros w2 Hbot. eapply should_respond_again; [exact Hsr | by rewrite Hbot ..].
Qed.

(** Gemini is down while [post_a] is scanned. *)
Lemma generation_failure_skips_post_witness :
  exists (o : outcome (nat * nat)) (w' : World),
    scan_post Sample.env_gemini_down Sample.post_a (0%nat, 0%nat) (Sample.world_of ["help"])
      = (o, w')
    /\ db w' = db (Sample.world_of ["help"])
    /\ bot w' = bot (Sample.world_of ["help"])
    /\ o = Ret (1%nat, 0%nat).
Proof.
  destruct (generation_failure_skips_post Sample.env_gemini_down Sample.post_a
              (0%nat, 0%nat) ["help"] (Sample.world_of ["help"])
              (snd (should_respond_to_post Sample.env_gemini_down Sample.post_a
                      (Sample.world_of ["help"]))))
    as (e & evs & o & w' & _ & _ & _ & Hrun & _ & Hbot & Hdb & _ & _ & Hret & _).
  - vm_compute. reflexivity.
  - intros text. vm_compute. discriminate.
  - exists o, w'. split; [exact Hrun |]. split; [exact Hdb |]. split; [exact Hbot |].
    apply Hret. vm_compute. discriminate.
Defined.

(** ** Interaction records *)

Lemma length_append (a b : string) :
  String.length (a ++ b)%string = (String.length a + String.length b)%nat.
Proof. induction a as [| c a IH]; [done |]. rewrite append_cons. simpl. by rewrite IH. Qed.

Lemma append_empty_r (a : string) : (a ++ "")%string = a.
Proof. induction a as [| c a IH]; [done |]. rewrite append_cons. by rewrite IH. Qed.

Lemma take_length (n : nat) (s : string) :
  String.length (PyStr.take n s) = Nat.min n (String.length s).
Proof.
  revert s. induction n as [| n IH]; intros [| c s]; simpl; try reflexivity.
  by rewrite IH.
Qed.

Lemma take_prefix (n : nat) (s : string) :
  exists rest : string, s = (PyStr.take n s ++ rest)%string.
Proof.
  revert s. induction n as [| n IH]; intros [| c s]; simpl; try by eexists.
  destruct (IH s) as [rest Hrest]. exists rest. rewrite append_cons. congruence.
Qed.

(** The row that [log_interaction] writes. *)
Lemma interaction_row_fields (now : Q) (post : Post) (kws : list string)
    (response : option string) (success : bool) :
  let row := interaction_row now post kws response success in
  i_post_id row = post_id post
  /\ i_success row = success
  /\ i_keywords_found row = String.concat ", " kws
  /\ i_bot_response row = response
  /\ (String.length (i_post_content row) <= 500)%nat
  /\ (forall body, post_selftext post = Some body ->
        i_post_content row = PyStr.take 500 body
        /\ (exists rest, body = (i_post_content row ++ rest)%string)
        /\ ((String.length body <= 500)%nat -> i_post_content row = body))
  /\ (post_selftext post = None -> i_post_content row = "")
  /\ (response = None -> i_response_length row = 0%nat)
  /\ (forall text, response = Some text -> i_response_length row = String.length text).
Proof.
  intros row. subst row. unfold interaction_row, PyStr.join.
  cbn [i_post_id i_success i_keywords_found i_bot_response i_post_content
       i_response_length].
  split_and!; try done.
  - destruct (post_selftext post); [rewrite take_length | cbn]; lia.
  - intros body ->. split_and!; try done.
    + apply take_prefix.
    + intros Hlen. destruct (take_prefix 500 body) as [rest Hrest].
      assert (String.length rest = 0%nat) as Hnil.
      { apply (f_equal String.length) in Hrest.
        rewrite length_append, take_length in Hrest. lia. }
      destruct rest; [| discriminate]. rewrite Hrest at 2.
      by rewrite append_empty_r.
  - by intros ->.
  - by intros ->.
  - intros text ->. by destruct text.
Qed.

(** C5: take a post that the filter accepts and for which
    [generate_response] produced a non-empty text, on a store that accepts
    its statements, with the connection open and nothing left uncommitted.
    Then the turn of the scan loop for that post appends exactly one row to
    table [interactions], whether the reply went through or not, and its
    success flag is the answer of [post_response]; the row holds the id of
    the post, the first 500 characters of its body, the matched keywords
    joined by a comma and a blank, and the length of the response.  A row
    written by [log_interaction] for an absent response has length 0. *)
Theorem one_interaction_per_response (env : Env) (post : Post) (c : nat * nat)
    (kws : list string) (text : string) (w w1 w2 : World) :
  let found := EvLog INFO (MsgFoundRelevant (PyStr.take 50 (post_title post))) in
  should_respond_to_post env post w = (Ret (true, kws), w1) ->
  generate_response env post kws (snoc w1 [found]) = (Ret (Some text), w2) ->
  PyStr.truthy text = true ->
  store_ok env ->
  conn_open (bot w) = true ->
  pending (bot w) = [] ->
  exists (success : bool) (w3 : World) (now : Q) (o : outcome (nat * nat)) (w' : World),
    let row := interaction_row now post kws (Some text) success in
    post_response env post text w2 = (Ret success, w3)
    /\ scan_post env post c w = (o, w')
    /\ interactions (db w') = interactions (db w) ++ [row]
    /\ pending (bot w') = []
    /\ i_success row = success
    /\ i_post_id row = post_id post
    /\ i_post_content row = match post_selftext post with
                            | Some body => PyStr.take 500 body
                            | None => ""
                            end
    /\ (String.length (i_post_content row) <= 500)%nat
    /\ i_keywords_found row = String.concat ", " kws
    /\ i_response_length row = String.length text
    /\ (forall t p k s, i_response_length (interaction_row t p k None s) = 0%nat).
Proof.
  intros found Hsr Hgen Htruthy Hstore Hopen Hpend.
  destruct (should_respond_frame env post w) as (? & ? & evs0 & Hsr' & _ & _).
  rewrite Hsr in Hsr'. injection Hsr' as <- <- ->.
  destruct (generate_response_spec env post kws (snoc (snoc w evs0) [found]))
    as (? & evs1 & Hgen' & _ & _).
  rewrite Hgen in Hgen'. injection Hgen' as <- ->.
  destruct (post_response_spec env post text (snoc (snoc (snoc w evs0) [found]) evs1))
    as (success & evs2 & Hpost & _ & _).
  set (w3 := snoc (snoc (snoc (snoc w evs0) [found]) evs1) evs2) in *.
  set (now := env_time env (trace w3)).
  set (row := interaction_row now post kws (Some text) success).
  assert (log_interaction env post kws (Some text) success w3 =
          (Ret tt,
           {| trace := trace w3 ++ [EvNow now; EvDb (OpInsert row) true; EvDb OpCommit true];
              bot := with_conn true [] (bot w3);
              db := {| interactions := interactions (db w3) ++ pending (bot w3) ++ [row];
                       performance_metrics := performance_metrics (db w3) |};
              gui := gui w3 |})) as Hlog.
  { rewrite log_interaction_run. fold now row.
    subst w3. rewrite !bot_snoc, Hopen. by rewrite !Hstore. }
  set (w4 := {| trace := _ |}) in Hlog.
  assert (exists o w', scan_post env post c w = (o, w')
                       /\ interactions (db w') = interactions (db w) ++ [row]
                       /\ pending (bot w') = []) as (o & w' & Hscan & Hrows & Hpend').
  { unfold scan_post. rewrite bind_run, Hsr. cbn [fst snd]. unfold respond.
    mexec. fold found. rewrite Hgen. cbn [response_truthy].
    change (default "" (Some text)) with text. rewrite Htruthy.
    mexec. rewrite Hpost. mexec. fold w3. rewrite Hlog.
    destruct success; mexec; rewrite ?processed_add_run; mexec;
      unfold sleep; destruct (_ <? 0); mexec; eexists _, _;
      (split; [reflexivity |]); subst w4 w3; cbn; rewrite Hpend; done. }
  exists success, w3, now, o, w'. cbv zeta. fold row.
  destruct (interaction_row_fields now post kws (Some text) success)
    as (Hid & Hsucc & Hkw & _ & Hlen & _ & _ & _ & Htext).
  fold row in Hid, Hsucc, Hkw, Hlen, Htext.
  split_and!; try done.
  by apply Htext.
Qed.

(** [post_a] is answered and the answer is logged. *)
Lemma one_interaction_per_response_witness :
  exists (success : bool) (now : Q) (o : outcome (nat * nat)) (w' : World),
    scan_post Sample.env_ok Sample.post_a (0%nat, 0%nat) (Sample.world_of ["help"]) = (o, w')
    /\ interactions (db w') =
       [interaction_row now Sample.post_a ["help"]
          (Some "What have you tried so far?") success].
Proof.
  set (w := Sample.world_of ["help"]).
  set (sr := should_respond_to_post Sample.env_ok Sample.post_a w).
  set (found := EvLog INFO (MsgFoundRelevant (PyStr.take 50 (post_title Sample.post_a)))).
  set (gr := generate_response Sample.env_ok Sample.post_a ["help"] (snoc (snd sr) [found])).
  destruct (one_interaction_per_response Sample.env_ok Sample.post_a (0%nat, 0%nat)
              ["help"] "What have you tried so far?" w (snd sr) (snd gr))
    as (success & w3 & now & o & w' & _ & Hscan & Hrows & _).
  - vm_compute. reflexivity.
  - vm_compute. reflexivity.
  - reflexivity.
  - intros h op. reflexivity.
  - reflexivity.
  - reflexivity.
  - exists success, now, o, w'. split; [exact Hscan | exact Hrows].
Defined.

(** ** Lifecycle Controller: start *)

(** No keyword is configured exactly when every comma-separated field of the
    box is blank. *)
Lemma parse_keywords_nil (text : string) :
  parse_keywords text = [] <->
  Forall (fun field => PyStr.strip field = "") (PyStr.split_comma text).
Proof.
  unfold parse_keywords. induction (PyStr.split_comma text) as [| f fs IH]; simpl.
  - split; [constructor | done].
  - destruct (PyStr.strip f) eqn:Hf; simpl.
    + rewrite IH. split; [by constructor | by inversion 1].
    + split; [done | inversion 1; congruence].
Qed.

(** C6: [start_bot] on a stopped application whose keyword box yields no
    keyword shows the error dialog "Input Error" and returns at once: the
    call does not raise, the application stays stopped, no bot is created, the
    stop signal is not touched and no worker thread is started; the world is
    the same but for the dialog. *)
Theorem start_bot_rejects_no_keyword (env : Env) (w : World) :
  is_running (gui w) = false ->
  parse_keywords (PyStr.strip (kw_text (gui w))) = [] ->
  exists w' : World,
    start_bot env w = (Ret tt, w')
    /\ trace w' = trace w ++ [EvDialog (ErrorBox "Input Error" None)]
    /\ gui w' = gui w
    /\ is_running (gui w') = false
    /\ workers (gui w') = workers (gui w)
    /\ bot_set (gui w') = bot_set (gui w)
    /\ bot w' = bot w
    /\ db w' = db w.
Proof.
  intros Hstopped Hnone. unfold start_bot.
  mexec. rewrite Hstopped. mexec. rewrite Hnone.
  rewrite bool_decide_eq_true_2 by done. unfold showerror. mexec.
  eexists. split; [reflexivity |]. mrun. rewrite Hstopped.
  split_and!; done.
Qed.

(** The keyword box holds blanks and commas only. *)
Lemma start_bot_rejects_no_keyword_witness :
  exists w' : World,
    start_bot Sample.env_ok (Sample.stopped_world " , ,") = (Ret tt, w')
    /\ is_running (gui w') = false
    /\ workers (gui w') = 0%nat.
Proof.
  destruct (start_bot_rejects_no_keyword Sample.env_ok (Sample.stopped_world " , ,"))
    as (w' & Hrun & _ & _ & Hstopped & Hworkers & _).
  - reflexivity.
  - vm_compute. reflexivity.
  - exists w'. split; [exact Hrun |]. split; [exact Hstopped | exact Hworkers].
Defined.

(** With keywords in the box the same call goes on to build the bot.  The
    constructor fails on the configuration that [load_config] left, so the
    dialog "Start Error" is shown and nothing is started. *)
Example start_bot_start_error :
  let w := Sample.stopped_world "help, How to ,,advice" in
  let w' := snd (start_bot Sample.env_ok w) in
  parse_keywords (PyStr.strip (kw_text (gui w))) = ["help"; "How to"; "advice"]
  /\ trace w' = [EvLog ERROR (MsgConnectFailed "Reddit" TypeError);
                 EvDialog (ErrorBox "Start Error" (Some TypeError))]
  /\ is_running (gui w') = false
  /\ workers (gui w') = 0%nat
  /\ bot_set (gui w') = false.
Proof. vm_compute. done. Qed.

(** ** Bulk clear *)

(** [refresh_db] never raises and only adds to the trace. *)
Lemma refresh_db_spec (env : Env) (w : World) :
  exists evs : Trace, refresh_db env w = (Ret tt, snoc w evs).
Proof.
  unfold refresh_db. mexec. rewrite sqlite_run.
  destruct (env_db_ok env (trace w) OpConnect); mexec.
  2: { unfold showerror. mexec. rewrite snoc_snoc. by eexists. }
  rewrite sqlite_run.
  destruct (env_db_ok env _ OpSelectRecent); mexec; unfold showerror; mexec;
    rewrite !snoc_snoc; by eexists.
Qed.

(** The bulk clear never raises, leaves the bot and the GUI alone, and either
    leaves the store as it was or empties both tables; it empties them when
    SQLite accepts the statements. *)
Lemma bulk_clear_spec (env : Env) (w : World) :
  exists w' : World,
    bulk_clear env w = (Ret tt, w')
    /\ bot w' = bot w
    /\ gui w' = gui w
    /\ (db w' = db w \/ db w' = {| interactions := []; performance_metrics := [] |})
    /\ (store_ok env -> db w' = {| interactions := []; performance_metrics := [] |}).
Proof.
  unfold bulk_clear. rewrite try_except_run.
  assert (forall (e : exn) (evs : Trace),
            exists w', showerror "DB Error" (Some e) (snoc w evs) = (Ret tt, w')
                       /\ bot w' = bot w /\ gui w' = gui w /\ db w' = db w) as Herr.
  { intros e evs. unfold showerror. mexec. eexists. split; [reflexivity |]. done. }
  rewrite bind_run, sqlite_run.
  destruct (env_db_ok env _ OpConnect) eqn:H1.
  2: { destruct (Herr OperationalError [EvDb OpConnect false]) as (w' & -> & ? & ? & ?).
       exists w'. split_and!; try done; [by left |].
       intros Hok. by rewrite Hok in H1. }
  rewrite bind_run, sqlite_run, trace_snoc.
  destruct (env_db_ok env _ OpDeleteInteractions) eqn:H2; rewrite snoc_snoc.
  2: { destruct (Herr OperationalError
                   ([EvDb OpConnect true] ++ [EvDb OpDeleteInteractions false]))
         as (w' & -> & ? & ? & ?).
       exists w'. split_and!; try done; [by left |].
       intros Hok. by rewrite Hok in H2. }
  rewrite bind_run, sqlite_run, trace_snoc.
  destruct (env_db_ok env _ OpDeleteMetrics) eqn:H3; rewrite snoc_snoc.
  2: { destruct (Herr OperationalError
                   (([EvDb OpConnect true] ++ [EvDb OpDeleteInteractions true])
                      ++ [EvDb OpDeleteMetrics false]))
         as (w' & -> & ? & ? & ?).
       exists w'. split_and!; try done; [by left |].
       intros Hok. by rewrite Hok in H3. }
  rewrite bind_run, sqlite_run, trace_snoc.
  destruct (env_db_ok env _ OpCommit) eqn:H4; rewrite snoc_snoc.
  2: { destruct (Herr OperationalError
                   ((([EvDb OpConnect true] ++ [EvDb OpDeleteInteractions true])
                       ++ [EvDb OpDeleteMetrics true])
                      ++ [EvDb OpCommit false]))
         as (w' & -> & ? & ? & ?).
       exists w'. split_and!; try done; [by left |].
       intros Hok. by rewrite Hok in H4. }
  rewrite bind_run, modify_run, bind_run.
  match goal with
  | |- context [refresh_db env ?w1] =>
      destruct (refresh_db_spec env w1) as [evs ->]
  end.
  unfold showinfo. mexec. eexists. split; [reflexivity |]. mrun.
  split_and!; try done. by right.
Qed.

(** [clear_db] asks first: a declined question leaves everything as it was,
    a confirmed one runs the bulk clear. *)
Lemma clear_db_spec (env : Env) (w : World) :
  exists w' : World,
    clear_db env w = (Ret tt, w')
    /\ bot w' = bot w
    /\ gui w' = gui w
    /\ (db w' = db w \/ db w' = {| interactions := []; performance_metrics := [] |})
    /\ (env_confirm env (trace w) = true -> store_ok env ->
        db w' = {| interactions := []; performance_metrics := [] |}).
Proof.
  unfold clear_db. rewrite bind_run. unfold askyesno.
  destruct (env_confirm env (trace w)) eqn:Hyes; cbn [negb].
  2: { rewrite ret_run. eexists. split; [reflexivity |]. mrun.
       split_and!; try done. by left. }
  destruct (bulk_clear_spec env (snoc w [EvAsk true])) as (w' & -> & ? & ? & ? & ?).
  exists w'. split_and!; done.
Qed.

(** C9: the bulk clear of the store never raises, on the first run or on the
    second, and it leaves the bot and the application alone.  When SQLite
    accepts the statements, both tables are empty after the first run,
    whatever the store held, and empty again after the second.  Empty tables
    stay empty in any case.  The same holds of [clear_db], which runs the bulk
    clear once the operator has confirmed, and does nothing otherwise. *)
Theorem bulk_clear_idempotent (env : Env) (w : World) :
  (let first := bulk_clear env w in
   let second := bulk_clear env (snd first) in
   fst first = Ret tt
   /\ fst second = Ret tt
   /\ bot (snd second) = bot w
   /\ gui (snd second) = gui w
   /\ (store_empty (db (snd first)) -> store_empty (db (snd second)))
   /\ (store_ok env ->
       store_empty (db (snd first)) /\ store_empty (db (snd second))))
  /\ (let first := clear_db env w in
      let second := clear_db env (snd first) in
      fst first = Ret tt
      /\ fst second = Ret tt
      /\ bot (snd second) = bot w
      /\ gui (snd second) = gui w
      /\ (store_empty (db (snd first)) -> store_empty (db (snd second)))
      /\ (env_confirm env (trace w) = true -> store_ok env ->
          store_empty (db (snd first)) /\ store_empty (db (snd second)))).
Proof.
  split.
  - intros first second. subst second first.
    destruct (bulk_clear_spec env w) as (w1 & -> & Hbot1 & Hgui1 & Hdb1 & Hclear1).
    cbn [fst snd].
    destruct (bulk_clear_spec env w1) as (w2 & -> & Hbot2 & Hgui2 & Hdb2 & _).
    cbn [fst snd].
    assert (store_empty (db w1) -> store_empty (db w2)) as Hstay.
    { intros Hempty. by destruct Hdb2 as [-> | ->]. }
    split_and!; try done; try congruence.
    intros Hok. specialize (Hclear1 Hok).
    assert (store_empty (db w1)) by (by rewrite Hclear1). auto.
  - intros first second. subst second first.
    destruct (clear_db_spec env w) as (w1 & -> & Hbot1 & Hgui1 & Hdb1 & Hclear1).
    cbn [fst snd].
    destruct (clear_db_spec env w1) as (w2 & -> & Hbot2 & Hgui2 & Hdb2 & _).
    cbn [fst snd].
    assert (store_empty (db w1) -> store_empty (db w2)) as Hstay.
    { intros Hempty. by destruct Hdb2 as [-> | ->]. }
    split_and!; try done; try congruence.
    intros Hyes Hok. specialize (Hclear1 Hyes Hok).
    assert (store_empty (db w1)) by (by rewrite Hclear1). auto.
Qed.

(** A store with rows in both tables is emptied, and stays empty. *)
Lemma bulk_clear_idempotent_witness :
  let first := bulk_clear Sample.env_ok Sample.filled_world in
  let second := bulk_clear Sample.env_ok (snd first) in
  ~ store_empty (db Sample.filled_world)
  /\ store_empty (db (snd first))
  /\ store_empty (db (snd second))
  /\ fst first = Ret tt
  /\ fst second = Ret tt.
Proof.
  destruct (bulk_clear_idempotent Sample.env_ok Sample.filled_world)
    as ((Hret1 & Hret2 & _ & _ & _ & Hclear) & _).
  destruct Hclear as [H1 H2]; [by intros h op |].
  split_and!; try done. by intros [[=] _].
Defined.

(** When the operator declines, [clear_db] deletes nothing. *)
Example clear_db_declined :
  db (snd (clear_db Sample.env_declines Sample.filled_world)) = Sample.filled_store.
Proof. reflexivity. Qed.

(** ** Lifecycle Controller: the inter-cycle wait *)

Lemma stop_is_set_run (env : Env) (w : World) :
  stop_is_set env w = (Ret (env_stop env (trace w)), snoc w [EvStopCheck (env_stop env (trace w))]).
Proof. reflexivity. Qed.

Lemma wait_rounds_cons (i k : nat) :
  wait_rounds i (S k) = wait_round i ++ wait_rounds (S i) k.
Proof. reflexivity. Qed.

Lemma wait_rounds_snoc (i k : nat) :
  wait_rounds i (S k) = wait_rounds i k ++ wait_round (i + k).
Proof.
  unfold wait_rounds. rewrite seq_S, map_app, concat_app. cbn. by rewrite app_nil_r.
Qed.

Lemma slept_app (a b : Trace) : slept (a ++ b) = slept a + slept b.
Proof.
  unfold slept. induction a as [| e a IH]; [done |].
  cbn [List.app foldr]. destruct e; rewrite ?IH; lia.
Qed.

Lemma slept_wait_round (i : nat) : slept (wait_round i) = 1.
Proof. unfold wait_round. by destruct (i mod 60 =? 0)%nat. Qed.

(** A wait of [k] rounds sleeps [k] seconds. *)
Lemma slept_wait_rounds (i k : nat) : slept (wait_rounds i k) = Z.of_nat k.
Proof.
  revert i. induction k as [| k IH]; intros i; [done |].
  rewrite wait_rounds_cons, slept_app, slept_wait_round, IH. lia.
Qed.

(** The wait loop over rounds [i .. i+n-1] runs the rounds before the first
    one at whose test the stop signal is set, [k] of them, and then, unless
    all [n] rounds were run, observes the signal and leaves. *)
Lemma wait_loop_spec (env : Env) (n i : nat) (w : World) :
  exists k : nat,
    (k <= n)%nat
    /\ wait_loop env (seq i n) w =
       (Ret tt, snoc w (wait_rounds i k ++ (if (k <? n)%nat then [EvStopCheck true] else [])))
    /\ (forall j, (j < k)%nat -> env_stop env (trace w ++ wait_rounds i j) = false)
    /\ ((k < n)%nat -> env_stop env (trace w ++ wait_rounds i k) = true).
Proof.
  revert i w. induction n as [| n IH]; intros i w.
  { exists 0%nat. cbn [seq wait_loop]. rewrite ret_run.
    split_and!; try done; try lia.
    cbn. by rewrite snoc_nil. }
  cbn [seq wait_loop]. rewrite bind_run, stop_is_set_run.
  destruct (env_stop env (trace w)) eqn:Hstop.
  { exists 0%nat. rewrite ret_run. split_and!; try done; try lia.
    intros _. cbn. by rewrite app_nil_r. }
  assert (((if (i mod 60 =? 0)%nat then log INFO MsgHeartbeat else mret tt) ;; sleep 1 ;;
            wait_loop env (seq (S i) n)) (snoc w [EvStopCheck false])
          = wait_loop env (seq (S i) n) (snoc w (wait_round i))) as ->.
  { unfold wait_round. destruct (i mod 60 =? 0)%nat; mexec;
      rewrite sleep_run by lia; mexec; by rewrite !snoc_snoc. }
  destruct (IH (S i) (snoc w (wait_round i))) as (k & Hk & -> & Hbefore & Hat).
  exists (S k). rewrite snoc_snoc, wait_rounds_cons, <- app_assoc.
  change (S k <? S n)%nat with (k <? n)%nat.
  split_and!; try done; try lia.
  - intros [| j] Hj.
    + cbn. by rewrite app_nil_r.
    + rewrite wait_rounds_cons, app_assoc. rewrite <- trace_snoc. apply Hbefore. lia.
  - intros Hlt. rewrite app_assoc, <- trace_snoc. apply Hat. lia.
Qed.

(** ** Lifecycle Controller: the finalizer *)

Lemma cleanup_run (w : World) :
  cleanup w = (Ret tt, snoc (set_bot (with_conn false [] (bot w)) w) [EvLog INFO MsgShutdown]).
Proof. reflexivity. Qed.

(** The [finally] block never raises; it closes the connection of the bot, if
    there is one, and puts the application in the stopped state. *)
Lemma finalizer_spec (w : World) :
  exists w' : World,
    finalizer w = (Ret tt, w')
    /\ trace w' = trace w ++ finalizer_events (bot_set (gui w))
    /\ is_running (gui w') = false
    /\ btn_start_enabled (gui w') = true
    /\ btn_stop_enabled (gui w') = false
    /\ status (gui w') = ("Stopped", "red")
    /\ bot_set (gui w') = bot_set (gui w)
    /\ workers (gui w') = workers (gui w)
    /\ (bot_set (gui w) = true -> conn_open (bot w') = false /\ pending (bot w') = [])
    /\ processed_posts (bot w') = processed_posts (bot w)
    /\ config (bot w') = config (bot w)
    /\ db w' = db w.
Proof.
  unfold finalizer, finalizer_events. mexec.
  destruct (bot_set (gui w)) eqn:Hbot.
  - rewrite cleanup_run. mexec. unfold log_line. mexec.
    eexists. split; [reflexivity |]. cbn. rewrite <- !app_assoc.
    split_and!; done.
  - mexec. unfold log_line. mexec.
    eexists. split; [reflexivity |]. cbn. split_and!; done.
Qed.

(** What [_run_loop] does once its [while] loop has ended with outcome [o]
    in world [w1]: an error is logged, then the finalizer runs. *)
Lemma run_loop_with_exit (env : Env) (cycle : M unit) (fuel : nat)
    (w w1 : World) (o : outcome unit) :
  while_not_stopped env cycle fuel w = Some (o, w1) ->
  exists w' : World,
    let logged := match o with
                  | Ret _ => []
                  | Raise e => [EvLog ERROR (MsgWorkerError e)]
                  end in
    run_loop_with env cycle fuel w = Some (Ret tt, w')
    /\ trace w' = trace w1 ++ logged ++ finalizer_events (bot_set (gui w1))
    /\ is_running (gui w') = false
    /\ btn_start_enabled (gui w') = true
    /\ btn_stop_enabled (gui w') = false
    /\ status (gui w') = ("Stopped", "red")
    /\ (bot_set (gui w1) = true -> conn_open (bot w') = false /\ pending (bot w') = [])
    /\ processed_posts (bot w') = processed_posts (bot w1)
    /\ db w' = db w1.
Proof.
  intros Hloop. unfold run_loop_with. rewrite Hloop.
  unfold try_finally. rewrite try_except_run.
  destruct o as [[] | e].
  - destruct (finalizer_spec w1)
      as (w' & -> & Htr & ? & ? & ? & ? & ? & ? & ? & ? & ? & ?).
    exists w'. cbn [List.app]. split_and!; done.
  - rewrite log_run.
    destruct (finalizer_spec (snoc w1 [EvLog ERROR (MsgWorkerError e)]))
      as (w' & -> & Htr & ? & ? & ? & ? & ? & ? & ? & ? & ? & ?).
    exists w'. rewrite trace_snoc, gui_snoc in Htr.
    split_and!; try done. by rewrite Htr, <- app_assoc.
Qed.

(** The [while] loop ends at once when the stop signal is set at its test. *)
Lemma while_stops (env : Env) (cycle : M unit) (fuel : nat) (w : World) :
  env_stop env (trace w) = true ->
  while_not_stopped env cycle (S fuel) w = Some (Ret tt, snoc w [EvStopCheck true]).
Proof. intros Hstop. cbn [while_not_stopped]. by rewrite stop_is_set_run, Hstop. Qed.

(** The [while] loop ends at once when its body raises, whatever fuel is
    left: the body is not run again. *)
Lemma while_raises (env : Env) (cycle : M unit) (fuel : nat) (w w2 : World) (e : exn) :
  env_stop env (trace w) = false ->
  loop_body env cycle (snoc w [EvStopCheck false]) = (Raise e, w2) ->
  while_not_stopped env cycle (S fuel) w = Some (Raise e, w2).
Proof.
  intros Hstop Hbody. cbn [while_not_stopped].
  by rewrite stop_is_set_run, Hstop, Hbody.
Qed.

(** However the [while] loop ends, it is at a test that found the stop signal
    set or with the error of its body. *)
Lemma while_exit (env : Env) (cycle : M unit) (fuel : nat) (w w1 : World)
    (o : outcome unit) :
  while_not_stopped env cycle fuel w = Some (o, w1) ->
  match o with
  | Ret _ => last (trace w1) = Some (EvStopCheck true)
  | Raise e => exists w0, loop_body env cycle w0 = (Raise e, w1)
  end.
Proof.
  revert w. induction fuel as [| fuel IH]; intros w; [done |].
  cbn [while_not_stopped]. rewrite stop_is_set_run.
  destruct (env_stop env (trace w)).
  - intros [= <- <-]. rewrite trace_snoc. apply last_snoc.
  - destruct (loop_body env cycle _) as [[[] | e] w2] eqn:Hbody.
    + apply IH.
    + intros [= <- <-]. by eexists.
Qed.

Lemma heartbeats_app (a b : Trace) : heartbeats (a ++ b) = (heartbeats a + heartbeats b)%nat.
Proof. unfold heartbeats. by rewrite List.filter_app, length_app. Qed.

Lemma heartbeats_wait_round (i : nat) :
  heartbeats (wait_round i) = if (i mod 60 =? 0)%nat then 1%nat else 0%nat.
Proof. unfold wait_round. by destruct (i mod 60 =? 0)%nat. Qed.

Lemma started_minutes (k : nat) :
  ((S k + 59) / 60 = (k + 59) / 60 + (if (k mod 60 =? 0)%nat then 1 else 0))%nat.
Proof.
  pose proof (Nat.div_mod_eq k 60). pose proof (Nat.div_mod_eq (k + 59) 60).
  pose proof (Nat.div_mod_eq (S k + 59) 60).
  pose proof (Nat.mod_upper_bound k 60). pose proof (Nat.mod_upper_bound (k + 59) 60).
  pose proof (Nat.mod_upper_bound (S k + 59) 60).
  destruct (Nat.eqb_spec (k mod 60) 0); lia.
Qed.

(** In [k] rounds the heartbeat is logged once for every started minute. *)
Lemma heartbeats_wait_rounds (k : nat) :
  heartbeats (wait_rounds 0 k) = ((k + 59) / 60)%nat.
Proof.
  induction k as [| k IH]; [done |].
  rewrite wait_rounds_snoc, heartbeats_app, IH, heartbeats_wait_round.
  cbn [Nat.add]. symmetry. apply started_minutes.
Qed.

Lemma loop_body_run (env : Env) (cycle : M unit) (w wc : World) :
  bot_set (gui w) = true ->
  cycle (snoc w [EvLog INFO MsgGuiCycleStart]) = (Ret tt, wc) ->
  loop_body env cycle w =
  wait_loop env (range (default 3600 (cycle_delay (config (bot wc)))))
    (snoc wc [EvLog INFO MsgGuiCycleFinished]).
Proof.
  intros Hbot Hcycle. unfold loop_body. mexec. rewrite Hbot. mexec.
  rewrite Hcycle. mexec. by rewrite bot_snoc.
Qed.

(** C7: the inter-cycle wait of [delay] seconds runs some number [k] of
    one-second rounds, each made of a test of the stop signal that finds it
    clear, a heartbeat line on rounds 0, 60, 120, ... (that is, after every 60
    seconds of waiting), and a sleep of one second; so [k] seconds are slept
    and one heartbeat is logged per started minute.  The rounds run are those
    before the first test that finds the signal set, at which the loop is
    left without sleeping again: a signal that arrives during the sleep of a
    round is observed right after that sleep, within one second.  When the
    signal is then still set, the [while] loop of [_run_loop] ends at its
    next test without another scan cycle, and the finalizer leaves the
    application stopped. *)
Theorem inter_cycle_wait_responsive (env : Env) (delay : Z) (w : World) :
  let n := Z.to_nat delay in
  exists k : nat,
    let observed := if (k <? n)%nat then [EvStopCheck true] else [] in
    let w' := snoc w (wait_rounds 0 k ++ observed) in
    (k <= n)%nat
    /\ wait_loop env (range delay) w = (Ret tt, w')
    /\ slept (wait_rounds 0 k ++ observed) = Z.of_nat k
    /\ heartbeats (wait_rounds 0 k ++ observed) = ((k + 59) / 60)%nat
    /\ (forall j, (j < k)%nat -> env_stop env (trace w ++ wait_rounds 0 j) = false)
    /\ ((k < n)%nat -> env_stop env (trace w ++ wait_rounds 0 k) = true)
    /\ (forall j, (j < n)%nat ->
          (forall i, (i <= j)%nat -> env_stop env (trace w ++ wait_rounds 0 i) = false) ->
          env_stop env (trace w ++ wait_rounds 0 (S j)) = true ->
          k = S j)
    /\ (stop_latched env -> (k < n)%nat ->
        forall (cycle : M unit) (fuel : nat) (w0 wc : World),
          bot_set (gui w0) = true ->
          env_stop env (trace w0) = false ->
          cycle (snoc w0 [EvStopCheck false; EvLog INFO MsgGuiCycleStart]) = (Ret tt, wc) ->
          w = snoc wc [EvLog INFO MsgGuiCycleFinished] ->
          delay = default 3600 (cycle_delay (config (bot wc))) ->
          exists w_end : World,
            run_loop_with env cycle (S (S fuel)) w0 = Some (Ret tt, w_end)
            /\ trace w_end = trace w' ++ [EvStopCheck true]
                               ++ finalizer_events (bot_set (gui wc))
            /\ is_running (gui w_end) = false).
Proof.
  intros n. unfold range. fold n.
  destruct (wait_loop_spec env n 0 w) as (k & Hk & Hrun & Hbefore & Hat).
  exists k. cbv zeta.
  set (observed := if (k <? n)%nat then [EvStopCheck true] else []) in *.
  split; [exact Hk |]. split; [exact Hrun |].
  split. { rewrite slept_app, slept_wait_rounds. subst observed.
           destruct (k <? n)%nat; cbn; lia. }
  split. { rewrite heartbeats_app, heartbeats_wait_rounds. subst observed.
           destruct (k <? n)%nat; cbn; lia. }
  split; [exact Hbefore |]. split; [exact Hat |].
  split.
  { intros j Hj Hclear Hset.
    destruct (Nat.lt_trichotomy k (S j)) as [Hlt | [Heq | Hgt]]; [| done |].
    - assert (k < n)%nat as Hkn by lia.
      specialize (Hat Hkn). rewrite Hclear in Hat by lia. done.
    - specialize (Hbefore (S j) Hgt). congruence. }
  intros Hlatched Hkn cycle fuel w0 wc Hbot Hclear Hcycle Hw Hdelay.
  assert (env_stop env (trace (snoc w (wait_rounds 0 k ++ observed))) = true) as Hstop.
  { rewrite trace_snoc, app_assoc. apply Hlatched. by apply Hat. }
  assert (while_not_stopped env cycle (S (S fuel)) w0 =
          Some (Ret tt, snoc (snoc w (wait_rounds 0 k ++ observed)) [EvStopCheck true]))
    as Hwhile.
  { cbn [while_not_stopped]. rewrite stop_is_set_run, Hclear.
    rewrite (loop_body_run env cycle _ wc);
      [| done | rewrite snoc_snoc; exact Hcycle].
    rewrite <- Hdelay, <- Hw. unfold range. fold n. rewrite Hrun.
    by rewrite stop_is_set_run, Hstop. }
  destruct (run_loop_with_exit env cycle _ _ _ _ Hwhile)
    as (w_end & Hend & Htr & Hstopped & _).
  exists w_end. split; [exact Hend |]. split; [| exact Hstopped].
  rewrite Htr. rewrite !gui_snoc, Hw, gui_snoc.
  rewrite (trace_snoc _ [EvStopCheck true]). cbn [List.app]. by rewrite <- app_assoc.
Qed.

Lemma env_stop_at_latched (n : nat) : stop_latched (Sample.env_stop_at n).
Proof.
  intros h h' H. cbn in *. apply Nat.leb_le in H. apply Nat.leb_le.
  rewrite length_app. lia.
Qed.

(** A run over an empty forum with a wait of 120 seconds; the operator asks
    to stop during the second second of the wait.  The worker sleeps two
    seconds in all and ends stopped. *)
Lemma inter_cycle_wait_responsive_witness :
  exists w_end : World,
    _run_loop (Sample.env_stop_at 14) 2 (Sample.world_of ["help"]) = Some (Ret tt, w_end)
    /\ slept (trace w_end) = 2
    /\ is_running (gui w_end) = false.
Proof.
  set (env := Sample.env_stop_at 14).
  set (w0 := Sample.world_of ["help"]).
  set (wc := snd (run_hourly_scan env
                    (snoc w0 [EvStopCheck false; EvLog INFO MsgGuiCycleStart]))).
  set (w := snoc wc [EvLog INFO MsgGuiCycleFinished]).
  destruct (inter_cycle_wait_responsive env 120 w)
    as (k & _ & _ & _ & _ & _ & _ & Hlatency & Hexit).
  assert (k = 2%nat) as ->.
  { apply (Hlatency 1%nat).
    - vm_compute. lia.
    - intros [| [| i]] Hi; [reflexivity | reflexivity | lia].
    - reflexivity. }
  destruct (Hexit (env_stop_at_latched 14) ltac:(vm_compute; lia)
              (run_hourly_scan env) 0%nat w0 wc)
    as (w_end & Hrun & Htr & Hstopped); try reflexivity.
  exists w_end. split; [exact Hrun |]. split; [| exact Hstopped].
  rewrite Htr. reflexivity.
Defined.

(** ** The processed set during a run *)

(** A whole scan cycle never raises; it leaves the GUI, the configuration and
    the connection alone, and only ever adds rows and processed ids, the
    latter only for replies that went through. *)
Lemma scan_all_frame (env : Env) (names : list string) (w : World) :
  exists (w' : World) (evs : Trace),
    for_each names (fun name => scan_subreddit env name 25) w = (Ret tt, w')
    /\ trace w' = trace w ++ evs
    /\ gui w' = gui w
    /\ config (bot w') = config (bot w)
    /\ conn_open (bot w') = conn_open (bot w)
    /\ (exists rows, interactions (db w') = interactions (db w) ++ rows)
    /\ processed_posts (bot w) ⊆ processed_posts (bot w')
    /\ processed_posts (bot w') ⊆
         processed_posts (bot w) ∪ list_to_set (ok_replies evs).
Proof.
  revert w. induction names as [| name names IH]; intros w.
  { exists w, []. cbn [for_each]. rewrite ret_run, app_nil_r.
    split_and!; try done.
    - exists []. by rewrite app_nil_r.
    - apply union_subseteq_l. }
  cbn [for_each]. rewrite bind_run.
  destruct (scan_subreddit_frame env name 25 w)
    as (w1 & evs1 & -> & Htr1 & Hgui1 & Hcfg1 & Hopen1 & [rows1 Hrows1] & Hsub1 & Hsup1).
  destruct (IH w1)
    as (w2 & evs2 & -> & Htr2 & Hgui2 & Hcfg2 & Hopen2 & [rows2 Hrows2] & Hsub2 & Hsup2).
  exists w2, (evs1 ++ evs2).
  rewrite Htr2, Htr1, Hgui2, Hgui1, Hcfg2, Hcfg1, Hopen2, Hopen1, Hrows2, Hrows1.
  rewrite ok_replies_app, list_to_set_app_L.
  split_and!; try done.
  - by rewrite app_assoc.
  - exists (rows1 ++ rows2). by rewrite app_assoc.
  - by etrans.
  - etrans; [exact Hsup2 |]. rewrite (assoc_L (∪)). by apply union_mono_r.
Qed.

Lemma time_time_run (env : Env) (w : World) :
  time_time env w = (Ret (env_time env (trace w)), snoc w [EvNow (env_time env (trace w))]).
Proof. reflexivity. Qed.

Lemma run_hourly_scan_frame (env : Env) (w : World) :
  exists (w' : World) (evs : Trace),
    run_hourly_scan env w = (Ret tt, w')
    /\ trace w' = trace w ++ evs
    /\ gui w' = gui w
    /\ config (bot w') = config (bot w)
    /\ conn_open (bot w') = conn_open (bot w)
    /\ (exists rows, interactions (db w') = interactions (db w) ++ rows)
    /\ processed_posts (bot w) ⊆ processed_posts (bot w')
    /\ processed_posts (bot w') ⊆
         processed_posts (bot w) ∪ list_to_set (ok_replies evs).
Proof.
  unfold run_hourly_scan. rewrite bind_run, time_time_run. mexec. rewrite !bot_snoc.
  set (t0 := env_time env (trace w)).
  destruct (scan_all_frame env (subreddits (config (bot w)))
              (snoc (snoc w [EvNow t0]) [EvLog INFO MsgStartingCycle]))
    as (w1 & evs & -> & Htr & Hgui & Hcfg & Hopen & [rows Hrows] & Hsub & Hsup).
  mexec. rewrite time_time_run. mexec.
  set (t1 := env_time env (trace w1)).
  rewrite snoc_snoc.
  exists (snoc w1 ([EvNow t1] ++ [EvLog INFO (MsgCycleCompleted (t1 - t0))])),
    (([EvNow t0] ++ [EvLog INFO MsgStartingCycle]) ++ evs
       ++ [EvNow t1] ++ [EvLog INFO (MsgCycleCompleted (t1 - t0))]).
  rewrite !ok_replies_app. cbn [ok_replies flat_map List.app]. rewrite app_nil_r.
  mrun. rewrite Htr, Hgui, Hcfg, Hopen, Hrows. mrun.
  split_and!; try done.
  - by rewrite <- !app_assoc.
  - by eexists.
Qed.

(** The wait loop never raises and only adds to the trace. *)
Lemma wait_loop_frame (env : Env) (steps : list nat) (w : World) :
  exists evs : Trace,
    wait_loop env steps w = (Ret tt, snoc w evs) /\ ok_replies evs = [].
Proof.
  revert w. induction steps as [| i steps IH]; intros w.
  { exists []. cbn [wait_loop]. by rewrite ret_run, snoc_nil. }
  cbn [wait_loop]. rewrite bind_run, stop_is_set_run.
  destruct (env_stop env (trace w)); [by eexists |].
  destruct (i mod 60 =? 0)%nat; mexec; rewrite sleep_run by lia; mexec;
    rewrite !snoc_snoc;
    match goal with
    | |- context [wait_loop env steps ?w1] =>
        destruct (IH w1) as (evs & -> & Hrep)
    end;
    rewrite snoc_snoc; eexists; (split; [reflexivity |]);
    rewrite ok_replies_app, Hrep; reflexivity.
Qed.

(** One turn of the [while] loop of [_run_loop]: it can only fail for want
    of a bot, and the processed set only grows. *)
Lemma loop_body_frame (env : Env) (w : World) :
  let res := loop_body env (run_hourly_scan env) w in
  gui (snd res) = gui w
  /\ processed_posts (bot w) ⊆ processed_posts (bot (snd res))
  /\ match fst res with
     | Ret _ => bot_set (gui w) = true
     | Raise e => e = AttributeError /\ bot_set (gui w) = false
     end.
Proof.
  intros res. subst res. unfold loop_body. mexec.
  destruct (bot_set (gui w)) eqn:Hbot; mexec; [| done].
  destruct (run_hourly_scan_frame env (snoc w [EvLog INFO MsgGuiCycleStart]))
    as (w1 & evs & -> & _ & Hgui & _ & _ & _ & Hsub & _).
  mexec.
  match goal with
  | |- context [wait_loop env ?steps ?w2] =>
      destruct (wait_loop_frame env steps w2) as (evs' & -> & _)
  end.
  cbn [fst snd]. mrun. by rewrite Hgui.
Qed.

(** The [while] loop of [_run_loop]: the processed set only grows, and only a
    missing bot makes it end with an error. *)
Lemma while_frame (env : Env) (fuel : nat) (w w1 : World) (o : outcome unit) :
  while_not_stopped env (run_hourly_scan env) fuel w = Some (o, w1) ->
  gui w1 = gui w
  /\ processed_posts (bot w) ⊆ processed_posts (bot w1)
  /\ match o with
     | Ret _ => True
     | Raise e => e = AttributeError /\ bot_set (gui w) = false
     end.
Proof.
  revert w. induction fuel as [| fuel IH]; intros w; [done |].
  cbn [while_not_stopped]. rewrite stop_is_set_run.
  destruct (env_stop env (trace w)).
  { by intros [= <- <-]. }
  pose proof (loop_body_frame env (snoc w [EvStopCheck false])) as (Hgui & Hsub & Hout).
  destruct (loop_body env (run_hourly_scan env) _) as [[[] | e] w2]; cbn [fst snd] in *.
  - intros Hrest. destruct (IH _ Hrest) as (Hgui' & Hsub' & Hout').
    rewrite Hgui', Hgui. split_and!; try done.
    + by etrans.
    + destruct o; [done |]. by rewrite Hgui in Hout'.
  - by intros [= <- <-].
Qed.

(** C8: however the [while] loop of [_run_loop] ends, around any scan cycle,
    the run ends with the finalizer done: the call returns normally, the
    application is stopped (flag, buttons and status line), the connection of
    the bot, if there is one, is closed, and the trace ends with the error
    line, if any, followed by the lines of the finalizer.  The loop ends
    either at a test that finds the stop signal set or with the error of its
    body.  It does end in both cases: at once when the signal is set at a
    test, and at once when the body raises, whatever fuel is left, so a
    failed cycle is not run again.  With the scan cycle of the bot itself the
    only error that reaches the handler is the missing bot: [run_hourly_scan]
    catches everything else, and the run of [_run_loop] ends stopped with the
    connection of its bot closed. *)
Theorem run_loop_always_finalized (env : Env) (cycle : M unit) (fuel : nat) (w : World) :
  (forall (o : outcome unit) (w' : World),
     run_loop_with env cycle fuel w = Some (o, w') ->
     exists (o1 : outcome unit) (w1 : World),
       while_not_stopped env cycle fuel w = Some (o1, w1)
       /\ o = Ret tt
       /\ is_running (gui w') = false
       /\ btn_start_enabled (gui w') = true
       /\ btn_stop_enabled (gui w') = false
       /\ status (gui w') = ("Stopped", "red")
       /\ (bot_set (gui w1) = true -> conn_open (bot w') = false /\ pending (bot w') = [])
       /\ trace w' = trace w1
                       ++ match o1 with
                          | Ret _ => []
                          | Raise e => [EvLog ERROR (MsgWorkerError e)]
                          end
                       ++ finalizer_events (bot_set (gui w1))
       /\ match o1 with
          | Ret _ => last (trace w1) = Some (EvStopCheck true)
          | Raise e => exists w0, loop_body env cycle w0 = (Raise e, w1)
          end)
  /\ (env_stop env (trace w) = true ->
      exists w' : World,
        run_loop_with env cycle (S fuel) w = Some (Ret tt, w')
        /\ trace w' = trace w ++ [EvStopCheck true] ++ finalizer_events (bot_set (gui w))
        /\ is_running (gui w') = false
        /\ (bot_set (gui w) = true -> conn_open (bot w') = false))
  /\ (forall (e : exn) (w2 : World),
        env_stop env (trace w) = false ->
        loop_body env cycle (snoc w [EvStopCheck false]) = (Raise e, w2) ->
        exists w' : World,
          run_loop_with env cycle (S fuel) w = Some (Ret tt, w')
          /\ trace w' = trace w2 ++ [EvLog ERROR (MsgWorkerError e)]
                          ++ finalizer_events (bot_set (gui w2))
          /\ is_running (gui w') = false
          /\ (bot_set (gui w2) = true -> conn_open (bot w') = false))
  /\ (forall (e : exn) (w1 : World),
        while_not_stopped env (run_hourly_scan env) fuel w = Some (Raise e, w1) ->
        e = AttributeError /\ bot_set (gui w) = false)
  /\ (forall (o : outcome unit) (w' : World),
        _run_loop env fuel w = Some (o, w') ->
        o = Ret tt
        /\ is_running (gui w') = false
        /\ (bot_set (gui w) = true -> conn_open (bot w') = false)).
Proof.
  split_and!.
  - intros o w' Hrun.
    destruct (while_not_stopped env cycle fuel w) as [[o1 w1] |] eqn:Hloop.
    2: { unfold run_loop_with in Hrun. by rewrite Hloop in Hrun. }
    destruct (run_loop_with_exit env cycle fuel w w1 o1 Hloop)
      as (w'' & Hrun' & Htr & ? & ? & ? & ? & ? & _).
    rewrite Hrun in Hrun'. injection Hrun' as -> ->.
    exists o1, w1. split_and!; try done.
    by apply (while_exit env cycle fuel w).
  - intros Hstop.
    destruct (run_loop_with_exit env cycle (S fuel) w _ _ (while_stops env cycle fuel w Hstop))
      as (w' & Hrun & Htr & ? & _ & _ & _ & Hconn & _).
    exists w'. rewrite trace_snoc, gui_snoc in Htr. rewrite gui_snoc in Hconn.
    split_and!; try done.
    + by rewrite Htr, <- app_assoc.
    + intros Hbot. by apply Hconn.
  - intros e w2 Hstop Hbody.
    destruct (run_loop_with_exit env cycle (S fuel) w _ _
                (while_raises env cycle fuel w w2 e Hstop Hbody))
      as (w' & Hrun & Htr & ? & _ & _ & _ & Hconn & _).
    exists w'. split_and!; try done. intros Hbot. by apply Hconn.
  - intros e w1 Hloop. by destruct (while_frame env fuel w w1 _ Hloop) as (_ & _ & ?).
  - intros o w' Hrun. unfold _run_loop in Hrun.
    destruct (while_not_stopped env (run_hourly_scan env) fuel w) as [[o1 w1] |] eqn:Hloop.
    2: { unfold run_loop_with in Hrun. by rewrite Hloop in Hrun. }
    destruct (while_frame env fuel w w1 o1 Hloop) as (Hgui & _ & _).
    destruct (run_loop_with_exit env _ fuel w w1 o1 Hloop)
      as (w'' & Hrun' & _ & ? & _ & _ & _ & Hconn & _).
    rewrite Hrun in Hrun'. injection Hrun' as -> ->.
    rewrite Hgui in Hconn. split_and!; try done. intros Hbot. by apply Hconn.
Qed.

(** A cycle that crashes on its first run, with fuel for a hundred more. *)
Lemma run_loop_always_finalized_witness :
  exists w' : World,
    run_loop_with Sample.env_ok Sample.crashing_cycle 100 (Sample.world_of ["help"])
      = Some (Ret tt, w')
    /\ is_running (gui w') = false
    /\ conn_open (bot w') = false
    /\ trace w' = [EvStopCheck false; EvLog INFO MsgGuiCycleStart;
                   EvLog ERROR (MsgWorkerError OtherError);
                   EvLog INFO MsgShutdown; EvUiLine "Bot stopped."].
Proof.
  destruct (run_loop_always_finalized Sample.env_ok Sample.crashing_cycle 99
              (Sample.world_of ["help"])) as (_ & _ & Hcrash & _).
  destruct (Hcrash OtherError
              (snoc (Sample.world_of ["help"]) [EvStopCheck false; EvLog INFO MsgGuiCycleStart]))
    as (w' & Hrun & Htr & Hstopped & Hconn); [reflexivity | reflexivity |].
  exists w'. split; [exact Hrun |]. split; [exact Hstopped |].
  split; [by apply Hconn | exact Htr].
Defined.

(** The worker of a GUI without a bot fails on its first turn and stops. *)
Example run_loop_without_bot :
  exists w' : World,
    _run_loop Sample.env_ok 5 (Sample.stopped_world "help") = Some (Ret tt, w')
    /\ trace w' = [EvStopCheck false; EvLog ERROR (MsgWorkerError AttributeError);
                   EvUiLine "Bot stopped."]
    /\ is_running (gui w') = false.
Proof. eexists. split; [vm_compute; reflexivity |]. done. Qed.

(** The block under [if should_respond:] can only fail in the Interaction
    Logger: with the error of SQLite, or with that of a closed connection. *)
Lemma respond_raises (env : Env) (post : Post) (kws : list string) (r : nat)
    (w w' : World) (e : exn) :
  respond env post kws r w = (Raise e, w') ->
  e = OperationalError \/ e = ProgrammingError.
Proof.
  unfold respond. rewrite bind_run, log_run.
  destruct (generate_response_spec env post kws
              (snoc w [EvLog INFO (MsgFoundRelevant (PyStr.take 50 (post_title post)))]))
    as (res & evs1 & Hgen & _).
  rewrite bind_run, Hgen.
  destruct (response_truthy res); [| by rewrite ret_run].
  destruct (post_response_spec env post (default "" res)
              (snoc (snoc w [EvLog INFO (MsgFoundRelevant (PyStr.take 50 (post_title post)))])
                 evs1))
    as (success & evs2 & Hpost & _).
  rewrite bind_run, Hpost, bind_run, log_interaction_run. cbv zeta.
  destruct (conn_open _); [| intros [= <- _]; by right].
  destruct (env_db_ok _ _ (OpInsert _)); [| intros [= <- _]; by left].
  destruct (env_db_ok _ _ OpCommit); [| intros [= <- _]; by left].
  destruct success; rewrite ?bind_run, ?processed_add_run, ?ret_run; discriminate.
Qed.

(** A turn of the scan loop that raises.  Either its closing pause was
    refused for a negative delay, after everything else had been done; or the
    Interaction Logger failed, and then the processed set is as it was,
    whether or not the reply went through. *)
Lemma scan_post_cut_short (env : Env) (post : Post) (c : nat * nat) (w : World)
    (e : exn) (evs : Trace) :
  let res := scan_post env post c w in
  fst res = Raise e ->
  trace (snd res) = trace w ++ evs ->
  (e = ValueError
   /\ reddit_delay (config (bot w)) < 0
   /\ processed_posts (bot (snd res)) =
      processed_posts (bot w) ∪ list_to_set (ok_replies evs))
  \/ ((e = OperationalError \/ e = ProgrammingError)
      /\ processed_posts (bot (snd res)) = processed_posts (bot w)).
Proof.
  intros res. subst res. unfold scan_post.
  destruct (should_respond_frame env post w) as (eligible & kws & evs0 & Hsr & _ & Hrep0).
  rewrite bind_run, Hsr. cbn [fst snd].
  destruct eligible.
  - destruct (respond_spec env post kws (snd c) (snoc w evs0))
      as (evs1 & Htr & _ & Hcfg & _ & _ & _ & _ & Hout & _).
    rewrite bind_run.
    destruct (respond env post kws (snd c) (snoc w evs0)) as [[r' | e'] w1] eqn:Hresp;
      cbn [fst snd] in *; rewrite trace_snoc in Htr; rewrite !bot_snoc in *.
    + destruct Hout as (_ & Hproc & _).
      rewrite bind_run, get_run, bind_run, Hcfg.
      destruct (Z.ltb_spec (reddit_delay (config (bot w))) 0) as [Hneg | Hpos].
      * rewrite sleep_neg by done. cbn [fst snd]. intros [= <-] Hevs. left.
        rewrite Htr, <- app_assoc in Hevs. apply app_inv_head in Hevs as <-.
        rewrite ok_replies_app, Hrep0. done.
      * rewrite sleep_run by done. intros H. discriminate H.
    + cbn [fst snd]. intros [= <-] _. right. split; [| done].
      by apply (respond_raises env post kws (snd c) (snoc w evs0) w1).
  - rewrite bind_run, ret_run, bind_run, get_run, bind_run, bot_snoc.
    destruct (Z.ltb_spec (reddit_delay (config (bot w))) 0) as [Hneg | Hpos].
    + rewrite sleep_neg by done. cbn [fst snd]. intros [= <-] Hevs. left.
      rewrite trace_snoc in Hevs. apply app_inv_head in Hevs as <-.
      rewrite Hrep0, bot_snoc. cbn. by rewrite (right_id_L ∅ (∪)).
    + rewrite sleep_run by done. intros H. discriminate H.
Qed.

(** C10 (amended): the processed set only grows during a run of [_run_loop],
    and during each scan cycle.  In the turn of the scan loop for a post at
    most one reply goes through, and it is to that post; the set gains at
    most the id of that post, and only when the reply went through.  It gains
    it exactly then when the turn completes, as it does when SQLite accepts
    the statements and the per-post delay is valid, and also when only the
    closing pause of the turn is refused.  But the id is added after the
    Interaction Logger has run: when the logger raises, which is the only
    other way for the turn to fail, the set is as it was, even if the reply
    went through.  When the reply did not go through the set is unchanged, so
    a post that the filter accepted is accepted again on any later occasion
    within the age window, as long as the processed set and the keywords are
    the same.  Such a post can then be answered again: with Reddit refusing
    every reply, two turns for the same post leave it outside the set and
    write two rows with its id, both with the success flag off. *)
Theorem processed_set_only_grows :
  (forall (env : Env) (fuel : nat) (w w' : World) (o : outcome unit),
     _run_loop env fuel w = Some (o, w') ->
     processed_posts (bot w) ⊆ processed_posts (bot w'))
  /\ (forall (env : Env) (w : World),
        processed_posts (bot w) ⊆ processed_posts (bot (snd (run_hourly_scan env w))))
  /\ (forall (env : Env) (post : Post) (c : nat * nat) (w : World),
        let res := scan_post env post c w in
        let w' := snd res in
        exists evs : Trace,
          trace w' = trace w ++ evs
          /\ (ok_replies evs = [] \/ ok_replies evs = [post_id post])
          /\ processed_posts (bot w) ⊆ processed_posts (bot w')
          /\ processed_posts (bot w') ⊆
               processed_posts (bot w) ∪ list_to_set (ok_replies evs)
          /\ (forall c', fst res = Ret c' ->
                processed_posts (bot w') =
                processed_posts (bot w) ∪ list_to_set (ok_replies evs))
          /\ (store_ok env -> conn_open (bot w) = true ->
              0 <= reddit_delay (config (bot w)) ->
              exists c', fst res = Ret c')
          /\ (fst res = Raise ValueError ->
              reddit_delay (config (bot w)) < 0
              /\ processed_posts (bot w') =
                 processed_posts (bot w) ∪ list_to_set (ok_replies evs))
          /\ (forall e, fst res = Raise e -> e <> ValueError ->
                (e = OperationalError \/ e = ProgrammingError)
                /\ processed_posts (bot w') = processed_posts (bot w))
          /\ (ok_replies evs = [] ->
                processed_posts (bot w') = processed_posts (bot w))
          /\ (ok_replies evs = [] ->
              forall (kws : list string) (w1 w2 : World),
                should_respond_to_post env post w = (Ret (true, kws), w1) ->
                processed_posts (bot w2) = processed_posts (bot w') ->
                keywords (config (bot w2)) = keywords (config (bot w')) ->
                ~ (3600 < env_time env (trace w2) - post_created_utc post)%Q ->
                fst (should_respond_to_post env post w2) = Ret (true, kws)))
  /\ (let w0 := Sample.world_of ["help"] in
      let w1 := snd (scan_post Sample.env_reply_down Sample.post_a (0%nat, 0%nat) w0) in
      let w2 := snd (scan_post Sample.env_reply_down Sample.post_a (1%nat, 0%nat) w1) in
      (post_id Sample.post_a ∉ processed_posts (bot w1))
      /\ (post_id Sample.post_a ∉ processed_posts (bot w2))
      /\ List.map (fun row => (i_post_id row, i_success row)) (interactions (db w1))
         = [("a1", false)]
      /\ List.map (fun row => (i_post_id row, i_success row)) (interactions (db w2))
         = [("a1", false); ("a1", false)]).
Proof.
  split_and!.
  - intros env fuel w w' o Hrun. unfold _run_loop in Hrun.
    destruct (while_not_stopped env (run_hourly_scan env) fuel w) as [[o1 w1] |] eqn:Hloop.
    2: { unfold run_loop_with in Hrun. by rewrite Hloop in Hrun. }
    destruct (while_frame env fuel w w1 o1 Hloop) as (_ & Hsub & _).
    destruct (run_loop_with_exit env _ fuel w w1 o1 Hloop)
      as (w'' & Hrun' & _ & _ & _ & _ & _ & _ & Hproc & _).
    rewrite Hrun in Hrun'. injection Hrun' as _ <-. by rewrite Hproc.
  - intros env w.
    by destruct (run_hourly_scan_frame env w) as (w' & evs & -> & _ & _ & _ & _ & _ & ? & _).
  - intros env post c w res w'. subst w' res.
    destruct (scan_post_spec env post c w)
      as (evs & Htr & _ & Hcfg & _ & _ & Hrep & _ & Hsub & Hsup & Hout & Hok).
    assert (ok_replies evs = [] ->
            processed_posts (bot (snd (scan_post env post c w))) = processed_posts (bot w))
      as Hsame.
    { intros Hnone. rewrite Hnone in Hsup. cbn [list_to_set] in Hsup.
      rewrite (right_id_L ∅ (∪)) in Hsup. apply (anti_symm (⊆)); done. }
    exists evs. split_and!; try done.
    + intros [s r] Hret. rewrite Hret in Hout. by destruct Hout as (_ & _ & ? & _).
    + intros Hraise.
      destruct (scan_post_cut_short env post c w ValueError evs Hraise Htr)
        as [(_ & ? & ?) | ([[=] | [=]] & _)]. done.
    + intros e Hraise Hne.
      destruct (scan_post_cut_short env post c w e evs Hraise Htr)
        as [(-> & _) | ?]; done.
    + intros Hnone kws w1 w2 Hsr Hproc Hkws Hage.
      eapply should_respond_again; [exact Hsr | | | exact Hage].
      * by rewrite Hproc, Hsame.
      * by rewrite Hkws, Hcfg.
  - cbv zeta. split_and!.
    + vm_compute. intros H. discriminate H.
    + vm_compute. intros H. discriminate H.
    + vm_compute. reflexivity.
    + vm_compute. reflexivity.
Qed.

(** C10, as stated, fails in "exactly when": the id is added after the
    Interaction Logger has run, so a reply that went through is not followed
    by the addition when the logger raises.  With a store that refuses the
    row, the responder answers [True] for the post "a1" and its reply is on
    Reddit, but the turn ends with the error of SQLite and "a1" is not in the
    processed set; the next turn for the same post answers it again. *)
Lemma processed_set_misses_answered_post :
  let w0 := Sample.world_of ["help"] in
  let res1 := scan_post Sample.env_store_down Sample.post_a (0%nat, 0%nat) w0 in
  let res2 := scan_post Sample.env_store_down Sample.post_a (0%nat, 0%nat) (snd res1) in
  fst (post_response Sample.env_store_down Sample.post_a "What have you tried so far?" w0)
    = Ret true
  /\ fst res1 = Raise OperationalError
  /\ ok_replies (trace (snd res1)) = ["a1"]
  /\ In (EvLog INFO (MsgPosted "a1")) (trace (snd res1))
  /\ (post_id Sample.post_a ∉ processed_posts (bot (snd res1)))
  /\ ok_replies (trace (snd res2)) = ["a1"; "a1"]
  /\ (post_id Sample.post_a ∉ processed_posts (bot (snd res2))).
Proof.
  cbv zeta. split_and!.
  - vm_compute. reflexivity.
  - vm_compute. reflexivity.
  - vm_compute. reflexivity.
  - vm_compute. tauto.
  - vm_compute. intros H. discriminate H.
  - vm_compute. reflexivity.
  - vm_compute. intros H. discriminate H.
Qed.
